(** * GopherCI build jobs: dispatcher and build types

    A shallow embedding of the three job scripts
    - [jobs/gopherci.py]     (the dispatcher),
    - [jobs/localbuild.py]   (the standard build type),
    - [jobs/localtrusted.py] (the local-trusted build type),
    together with the fragment of Python's [re] that [localbuild.py] uses.

    Each script is a program in a small state-and-exception monad over the
    state of the Python process ([sys.argv]) and of the robot it talks to. *)

From Stdlib Require Import String Ascii List ZArith Bool Lia.
From stdpp Require Import base option gmap strings list.

Local Open Scope string_scope.
Local Open Scope Z_scope.

(** ** Python values that reach a task's argument list

    [match.group(n)] is a [str], or [None] for a group that took no part in
    the match; the scripts put such values into the lists given to
    [AddTask]. *)

Inductive pyval :=
| PyNone
| PyStr (s : string).

Coercion PyStr : string >-> pyval.

(** Truth value of a [str]-or-[None]: [None] and the empty string are false. *)
Definition truthy (v : pyval) : bool :=
  match v with
  | PyNone => false
  | PyStr EmptyString => false
  | PyStr (String _ _) => true
  end.

(** ** The fragment of [re] used by [localbuild.py] *)

Module Re.

(** Patterns: literal text, a greedy star over a one-character class,
    sequence, a greedy optional non-capturing group [(?:r)?] and a
    numbered capturing group. *)
Inductive regex :=
| Lit (text : string)
| StarClass (cls : ascii -> bool)
| Seq (r1 r2 : regex)
| Opt (r : regex)
| Group (n : nat) (r : regex).

(** [.] without DOTALL: any character but a newline. *)
Definition dot (c : ascii) : bool := negb (Ascii.eqb c "010"%char).

(** [[^...]]: any character not listed. *)
Fixpoint none_of (excluded : string) (c : ascii) : bool :=
  match excluded with
  | EmptyString => true
  | String e rest => negb (Ascii.eqb c e) && none_of rest c
  end.

(** Strip the literal [text] from the front of [s]. *)
Fixpoint strip (text s : string) : option string :=
  match text with
  | EmptyString => Some s
  | String a text' =>
      match s with
      | String b s' => if Ascii.eqb a b then strip text' s' else None
      | EmptyString => None
      end
  end.

(** The text consumed between the input [s] and its suffix [rest]. *)
Definition consumed (s rest : string) : string :=
  String.substring 0 (String.length s - String.length rest) s.

Section Matcher.
Context {R : Type}.

(** Greedy star with backtracking: take one more character of the class
    when that lets the rest of the pattern match, stop here otherwise. *)
Fixpoint star (cls : ascii -> bool) (s : string)
         (k : string -> option R) : option R :=
  match s with
  | String c s' =>
      if cls c then
        match star cls s' k with
        | Some r => Some r
        | None => k s
        end
      else k s
  | EmptyString => k s
  end.
End Matcher.

(** Backtracking matcher in continuation-passing style; [g] holds the
    groups captured so far, [k] matches the rest of the pattern. *)
Fixpoint run (r : regex) (s : string) (g : gmap nat string)
         (k : string -> gmap nat string -> option (gmap nat string))
  : option (gmap nat string) :=
  match r with
  | Lit text =>
      match strip text s with
      | Some s' => k s' g
      | None => None
      end
  | StarClass cls => star cls s (fun s' => k s' g)
  | Seq r1 r2 => run r1 s g (fun s' g' => run r2 s' g' k)
  | Opt r' =>
      match run r' s g k with
      | Some m => Some m
      | None => k s g
      end
  | Group n r' => run r' s g (fun s' g' => k s' (<[n := consumed s s']> g'))
  end.

(** [re.match(pattern, s)]: anchored at the start, free at the end.  The
    result is the match object (its groups) or [None]. *)
Definition match_ (r : regex) (s : string) : option (gmap nat string) :=
  run r s ∅ (fun _ g => Some g).

(** [m.group(n)] for [n >= 1]. *)
Definition group (m : gmap nat string) (n : nat) : pyval :=
  match m !! n with
  | Some s => PyStr s
  | None => PyNone
  end.

End Re.

(** The pattern of [localbuild.py], line 59, written with spaces between its
    parts:  ssh://  (?: .* @ )?  ( [^:/]* )  (?: : ( [^/]* ) / )?  *)
Definition ssh_url_re : Re.regex :=
  Re.Seq (Re.Lit "ssh://")
    (Re.Seq (Re.Opt (Re.Seq (Re.StarClass Re.dot) (Re.Lit "@")))
       (Re.Seq (Re.Group 1 (Re.StarClass (Re.none_of ":/")))
          (Re.Opt (Re.Seq (Re.Lit ":")
                     (Re.Seq (Re.Group 2 (Re.StarClass (Re.none_of "/")))
                        (Re.Lit "/")))))).

(** The pattern of [localbuild.py], line 67:  (?: .* @ )?  ( [^:/]* )  *)
Definition scp_like_re : Re.regex :=
  Re.Seq (Re.Opt (Re.Seq (Re.StarClass Re.dot) (Re.Lit "@")))
    (Re.Group 1 (Re.StarClass (Re.none_of ":/"))).

(** Groups 1 and 2 of a match: the host and the port the patterns capture. *)
Definition host_and_port (m : option (gmap nat string)) : option (pyval * pyval) :=
  (fun g => (Re.group g 1, Re.group g 2)) <$> m.

(** [s.startswith(prefix)] *)
Definition startswith (s prefix : string) : bool :=
  match Re.strip prefix s with
  | Some _ => true
  | None => false
  end.

(** ** The process and the robot *)

(** One entry of [repositories.yaml]: the fields the jobs read, typed as
    the configuration has them, each of which may be missing from the
    mapping.  The whole file, as [yaml.load] or [GetRepoData] gives it, is a
    map from repository identifiers to entries. *)
Record RepoConf := mkRepoConf {
  type : option string;
  clone_url : option string;
  keep_history : option Z
}.

(** A call of a method of the robot, with the value it returned where the
    job looks at it. *)
Inductive call :=
| SetParameter (name value : string)
| GetRepoData
| Exclusive (tag : string) (queueTask : bool) (acquired : bool)
| ExtendNamespace (key : string) (keep : Z)
| AddTask (name : string) (args : list pyval)
| SpawnTask (name : string) (args : list pyval)
| Say (text : string)
| Log (level text : string).

(** What a job can change: the argument vector of its own process, and on
    the robot's side the parameters of the pipeline and the lock table.
    [trace] lists the calls made on the robot, oldest first. *)
Record world := mkWorld {
  argv : list string;
  parameters : gmap string string;
  locks : gset string;
  trace : list call
}.

Inductive exn :=
| IndexError (msg : string)
| NameError (name : string).

(** How a run of a script ends: it falls off the end (or a statement
    yields a value), [exit()] is called, or an exception escapes. *)
Inductive outcome (A : Type) :=
| Normal (a : A)
| SystemExit
| Raised (e : exn).

Arguments Normal {A} a.
Arguments SystemExit {A}.
Arguments Raised {A} e.

Definition script (A : Type) : Type := world -> outcome A * world.

#[global] Instance script_ret : MRet script :=
  fun A (a : A) w => (Normal a, w).

#[global] Instance script_bind : MBind script :=
  fun A B (f : A -> script B) (m : script A) w =>
    match m w with
    | (Normal a, w') => f a w'
    | (SystemExit, w') => (SystemExit, w')
    | (Raised e, w') => (Raised e, w')
    end.

Definition exit {A : Type} : script A := fun w => (SystemExit, w).
Definition raise {A : Type} (e : exn) : script A := fun w => (Raised e, w).

(** Reading a name that is bound only on some paths: [NameError] when no
    assignment to it was executed. *)
Definition read_name {A : Type} (name : string) (binding : option A) : script A :=
  match binding with
  | Some a => mret a
  | None => raise (NameError name)
  end.

Module sys.
(** [sys.argv.pop(0)] *)
Definition argv_pop0 : script string := fun w =>
  match argv w with
  | [] => (Raised (IndexError "pop from empty list"), w)
  | a :: rest => (Normal a, mkWorld rest (parameters w) (locks w) (trace w))
  end.

(** [len(sys.argv)] *)
Definition argv_len : script Z := fun w =>
  (Normal (Z.of_nat (List.length (argv w))), w).
End sys.

Module bot.

(** The robot notes the call [c] at the end of the trace. *)
Definition note (c : call) (w : world) : world :=
  mkWorld (argv w) (parameters w) (locks w) (trace w ++ [c]).

(** Modelled from the spec: [Robot.SetParameter] of the gopherbot library,
    the process-wide metadata channel; a key/value parameter is set and is
    readable by every later task. *)
Definition SetParameter (name value : string) : script unit := fun w =>
  (Normal tt,
   note (SetParameter name value)
     (mkWorld (argv w) (<[name := value]> (parameters w)) (locks w) (trace w))).

(** Modelled from the spec: [Robot.GetRepoData] of the gopherbot library,
    the config lookup interface; gives the mapping from repository
    identifiers to their entries. *)
Definition GetRepoData (repositories : gmap string RepoConf)
  : script (gmap string RepoConf) := fun w =>
  (Normal repositories, note GetRepoData w).

(** Modelled from the spec: [Robot.Exclusive(tag, False)] of the gopherbot
    library, the exclusivity lock; returns true and marks the key held if
    it is free, returns false at once if it is held.  The jobs only ever
    pass [False] for the queueing flag. *)
Definition Exclusive (tag : string) : script bool := fun w =>
  if decide (tag ∈ locks w) then
    (Normal false, note (Exclusive tag false false) w)
  else
    (Normal true,
     note (Exclusive tag false true)
       (mkWorld (argv w) (parameters w) ({[tag]} ∪ locks w) (trace w))).

(** Modelled from the spec: [Robot.ExtendNamespace] of the gopherbot
    library, the history/namespace manager; a slot is requested for the
    key with the given retention.  The request is noted; the rotation of
    the slots is the library's. *)
Definition ExtendNamespace (key : string) (keep : Z) : script unit := fun w =>
  (Normal tt, note (ExtendNamespace key keep) w).

(** Modelled from the spec: [Robot.AddTask] of the gopherbot library, the
    task executor interface; the task is appended to the ordered list the
    executor will run. *)
Definition AddTask (name : string) (args : list pyval) : script unit := fun w =>
  (Normal tt, note (AddTask name args) w).

(** Modelled from the spec: [Robot.SpawnTask] of the gopherbot library;
    the named handler is started with the given arguments. *)
Definition SpawnTask (name : string) (args : list pyval) : script unit := fun w =>
  (Normal tt, note (SpawnTask name args) w).

(** Modelled from the spec: [Robot.Say] of the gopherbot library, a
    user-visible message, fire and forget. *)
Definition Say (text : string) : script unit := fun w =>
  (Normal tt, note (Say text) w).

(** Modelled from the spec: [Robot.Log] of the gopherbot library, a
    diagnostic at the given level, fire and forget. *)
Definition Log (level text : string) : script unit := fun w =>
  (Normal tt, note (Log level text) w).

End bot.

(** ** jobs/gopherci.py *)

Definition gopherci (repodata : gmap string RepoConf) : script unit :=
  _ ← sys.argv_pop0;
  repository ← sys.argv_pop0;
  branch ← sys.argv_pop0;
  repotype ←
    match repodata !! repository with
    | Some repoconf =>
        match type repoconf with
        | Some t => mret t
        | None =>
            bot.Say ("No 'type' specified for " +:+ repository);;
            exit
        end
    | None =>
        bot.Log "Debug"
          ("Ignoring update on '" +:+ repository
             +:+ "', not listed in repositories.yaml");;
        exit
    end;
  if String.eqb repotype "none" then
    bot.Log "Debug"
      ("Ignoring update on '" +:+ repository
         +:+ "', repository type is 'none'");;
    exit
  else
    bot.SpawnTask repotype [PyStr repository; PyStr branch].

(** ** jobs/localbuild.py *)

(** Lines 58 to 70: the host-key tasks put in front of the clone. *)
Definition ssh_tasks (clone_url : string) : script unit :=
  if negb (startswith clone_url "http") then
    match Re.match_ ssh_url_re clone_url with
    | Some m =>
        bot.AddTask "ssh-init" [];;
        if truthy (Re.group m 2) then
          bot.AddTask "ssh-scan" [PyStr "-p"; Re.group m 2; Re.group m 1]
        else
          bot.AddTask "ssh-scan" [Re.group m 1]
    | None =>
        match Re.match_ scp_like_re clone_url with
        | Some m =>
            bot.AddTask "ssh-init" [];;
            bot.AddTask "ssh-scan" [Re.group m 1]
        | None => mret tt
        end
    end
  else mret tt.

Definition localbuild (repositories : gmap string RepoConf) : script unit :=
  _ ← sys.argv_pop0;
  repository ← sys.argv_pop0;
  branch ← sys.argv_pop0;
  bot.SetParameter "GOPHERCI_REPO" repository;;
  bot.SetParameter "GOPHERCI_BRANCH" branch;;
  n ← sys.argv_len;
  (if 0 <? n then
     deprepo ← sys.argv_pop0;
     depbranch ← sys.argv_pop0;
     bot.SetParameter "GOPHERCI_DEPBUILD" "true";;
     bot.SetParameter "GOPHERCI_DEPREPO" deprepo;;
     bot.SetParameter "GOPHERCI_DEPBRANCH" depbranch
   else mret tt);;
  repodata ← bot.GetRepoData repositories;
  (* [repoconf] is assigned only when [repository in repodata] *)
  let repoconf := repodata !! repository in
  conf ← read_name "repoconf" repoconf;
  match clone_url conf with
  | None =>
      bot.Say ("No 'clone_url' specified for '" +:+ repository
                 +:+ "' in repositories.yaml");;
      exit
  | Some clone_url =>
      let keep_history :=
        match keep_history conf with
        | None => 7
        | Some k => k
        end in
      let repobranch := repository +:+ "/" +:+ branch in
      acquired ← bot.Exclusive repobranch;
      if negb acquired then
        bot.Log "Warn"
          ("Build of '" +:+ repobranch +:+ "' already in progress, exiting");;
        exit
      else
        bot.ExtendNamespace repobranch keep_history;;
        ssh_tasks clone_url;;
        bot.AddTask "git-sync"
          [PyStr clone_url; PyStr branch; PyStr repobranch; PyStr "true"];;
        bot.AddTask "runpipeline" [];;
        bot.AddTask "cleanup" []
  end.

(** ** jobs/localtrusted.py *)

Definition localtrusted (repodata : gmap string RepoConf) : script unit :=
  _ ← sys.argv_pop0;
  repository ← sys.argv_pop0;
  branch ← sys.argv_pop0;
  (* [repoconf] is assigned only when [repository in repodata] *)
  let repoconf := repodata !! repository in
  conf ← read_name "repoconf" repoconf;
  match clone_url conf with
  | None =>
      bot.Say ("No 'clone_url' specified for '" +:+ repository
                 +:+ "' in repositories.yaml");;
      exit
  | Some clone_url =>
      let keep_history :=
        match keep_history conf with
        | None => 7
        | Some k => k
        end in
      bot.ExtendNamespace repository keep_history;;
      bot.AddTask "git-sync"
        [PyStr clone_url; PyStr branch; PyStr repository; PyStr "true"];;
      bot.AddTask "localexec" [PyStr ".gopherci/pipeline.sh"]
  end.

(** ** Runs and what they leave behind *)

(** The state a job starts from: its argument vector, and a robot that has
    no parameter set, holds the locks [held] for other builds and has not
    been called yet. *)
Definition start (args : list string) (held : gset string) : world :=
  mkWorld args ∅ held [].

(** The command line of a job: the executable's path, then the arguments. *)
Definition command (exe : string) (args : list string) : list string :=
  exe :: args.

(** The calls a run of [job] from [w] makes, and how it ends. *)
Definition calls {A : Type} (job : script A) (w : world) : list call :=
  drop (List.length (trace w)) (trace (snd (job w))).

Definition ends {A : Type} (job : script A) (w : world) : outcome A :=
  fst (job w).

(** Views of a list of calls: the tasks added, the handlers spawned, the
    messages said, the diagnostics logged. *)
Definition tasks (cs : list call) : list (string * list pyval) :=
  omap (fun c => match c with AddTask name args => Some (name, args) | _ => None end) cs.
Definition spawns (cs : list call) : list (string * list pyval) :=
  omap (fun c => match c with SpawnTask name args => Some (name, args) | _ => None end) cs.
Definition says (cs : list call) : list string :=
  omap (fun c => match c with Say text => Some text | _ => None end) cs.
Definition logs (cs : list call) : list (string * string) :=
  omap (fun c => match c with Log level text => Some (level, text) | _ => None end) cs.

(** The names of the tasks added, in order. *)
Definition task_names (cs : list call) : list string :=
  omap (fun c => match c with AddTask name _ => Some name | _ => None end) cs.

(** The keys the lock was tried for, the keys a namespace was extended for,
    and the keys (third argument) given to the clone task. *)
Definition lock_keys (cs : list call) : list string :=
  omap (fun c => match c with Exclusive tag _ _ => Some tag | _ => None end) cs.
Definition namespace_keys (cs : list call) : list string :=
  omap (fun c => match c with ExtendNamespace key _ => Some key | _ => None end) cs.
Definition sync_keys (cs : list call) : list pyval :=
  omap (fun c => match c with
                 | AddTask "git-sync" [_; _; key; _] => Some key
                 | _ => None
                 end) cs.

(** The build key of [localbuild.py], line 52. *)
Definition repobranch (repository branch : string) : string :=
  repository +:+ "/" +:+ branch.

(** The metadata calls of [localbuild.py], lines 28 to 35, for the
    arguments [deps] left after the repository and the branch. *)
Definition metadata (repository branch : string) (deps : list string) : list call :=
  ([SetParameter "GOPHERCI_REPO" repository;
    SetParameter "GOPHERCI_BRANCH" branch]
   ++ match deps with
      | deprepo :: depbranch :: _ =>
          [SetParameter "GOPHERCI_DEPBUILD" "true";
           SetParameter "GOPHERCI_DEPREPO" deprepo;
           SetParameter "GOPHERCI_DEPBRANCH" depbranch]
      | _ => []
      end)%list.

(** The parameters after the metadata calls. *)
Definition set_metadata (repository branch : string) (deps : list string)
    (ps : gmap string string) : gmap string string :=
  let ps' := <["GOPHERCI_BRANCH" := branch]> (<["GOPHERCI_REPO" := repository]> ps) in
  match deps with
  | deprepo :: depbranch :: _ =>
      <["GOPHERCI_DEPBRANCH" := depbranch]>
        (<["GOPHERCI_DEPREPO" := deprepo]>
           (<["GOPHERCI_DEPBUILD" := "true"]> ps'))
  | _ => ps'
  end.

(** The calls [ssh_tasks] makes, as a list: lines 58 to 70 of
    [localbuild.py] read as a function of the clone URL. *)
Definition host_key_tasks (clone_url : string) : list call :=
  if negb (startswith clone_url "http") then
    match Re.match_ ssh_url_re clone_url with
    | Some m =>
        [AddTask "ssh-init" [];
         if truthy (Re.group m 2) then
           AddTask "ssh-scan" [PyStr "-p"; Re.group m 2; Re.group m 1]
         else
           AddTask "ssh-scan" [Re.group m 1]]
    | None =>
        match Re.match_ scp_like_re clone_url with
        | Some m => [AddTask "ssh-init" []; AddTask "ssh-scan" [Re.group m 1]]
        | None => []
        end
    end
  else [].

(** The retention of a repository: [keep_history], 7 when it is not set. *)
Definition retention (conf : RepoConf) : Z :=
  match keep_history conf with
  | None => 7
  | Some k => k
  end.

Definition already_in_progress (key : string) : string :=
  "Build of '" +:+ key +:+ "' already in progress, exiting".

Definition not_listed (repository : string) : string :=
  "Ignoring update on '" +:+ repository +:+ "', not listed in repositories.yaml".

Definition type_is_none (repository : string) : string :=
  "Ignoring update on '" +:+ repository +:+ "', repository type is 'none'".

Definition no_type (repository : string) : string :=
  "No 'type' specified for " +:+ repository.

Definition no_clone_url (repository : string) : string :=
  "No 'clone_url' specified for '" +:+ repository +:+ "' in repositories.yaml".

(** The arguments after the repository and the branch are well formed:
    either there are none, or there are at least the repository and the
    branch of the build that triggered this one. *)
Definition well_formed (deps : list string) : Prop := List.length deps <> 1%nat.

(** The namespaces extended, each with its retention. *)
Definition extensions (cs : list call) : list (string * Z) :=
  omap (fun c => match c with ExtendNamespace key keep => Some (key, keep) | _ => None end) cs.

(** A second process of the same robot: its own arguments, and the
    parameters, locks and calls the robot has after the run that left [w]. *)
Definition next_job (args : list string) (w : world) : world :=
  mkWorld args (parameters w) (locks w) (trace w).

(** A run that leaves the lock table alone, extends no namespace, adds no
    task and spawns nothing. *)
Definition quiet (w : world) (result : outcome unit * world) : Prop :=
  exists cs,
    trace (snd result) = (trace w ++ cs)%list /\
    locks (snd result) = locks w /\
    namespace_keys cs = [] /\ tasks cs = [] /\ spawns cs = [].

(** Every character of a string is in a class. *)
Fixpoint all_chars (cls : ascii -> bool) (s : string) : bool :=
  match s with
  | EmptyString => true
  | String c s' => cls c && all_chars cls s'
  end.

(** The arguments of ssh-scan for a host and, maybe, a port. *)
Definition scan_args (host : string) (port : option string) : list pyval :=
  match port with
  | Some p => [PyStr "-p"; PyStr p; PyStr host]
  | None => [PyStr host]
  end.

(** A clone URL of the ssh:// form, put together from its parts: maybe a
    user part, the host, and what follows the host. *)
Definition ssh_url (user : option string) (host tail : string) : string :=
  "ssh://" +:+ match user with
               | Some u => u +:+ "@" +:+ host +:+ tail
               | None => host +:+ tail
               end.


(** What follows a host starts with a colon or a slash, or is empty. *)
Definition after_host (tail : string) : bool :=
  match tail with
  | EmptyString => true
  | String c _ => Ascii.eqb c ":"%char || Ascii.eqb c "/"%char
  end.

(** A user part that [.] can run over: no newline in it. *)
Definition one_line (user : option string) : bool :=
  match user with
  | Some u => all_chars Re.dot u
  | None => true
  end.

(** The optional port part of the first pattern:  (?: : ( [^/]* ) / )?  *)
Definition port_part_re : Re.regex :=
  Re.Opt (Re.Seq (Re.Lit ":")
            (Re.Seq (Re.Group 2 (Re.StarClass (Re.none_of "/"))) (Re.Lit "/"))).

(** The port ssh-scan is given for a captured port: none for an empty one. *)
Definition port_given (port : string) : option string :=
  match port with
  | EmptyString => None
  | String _ _ => Some port
  end.

(** No slash in a string. *)
Fixpoint slash_free (s : string) : bool :=
  match s with
  | EmptyString => true
  | String c s' => negb (Ascii.eqb c "/"%char) && slash_free s'
  end.

(** ** Example data *)

(** Two repositories, r and s, both of the standard build type. *)
Definition two_repositories : gmap string RepoConf :=
  {[ "r" := mkRepoConf (Some "localbuild") (Some "https://host/r.git") None;
     "s" := mkRepoConf (Some "localbuild") (Some "https://host/s.git") None ]}.

(** Two repositories whose identifiers differ by a path component. *)
Definition nested_repositories : gmap string RepoConf :=
  {[ "org" := mkRepoConf (Some "localbuild") (Some "https://host/org.git") None;
     "org/app" := mkRepoConf (Some "localbuild") (Some "https://host/app.git") None ]}.


(** A configuration with the one repository r, of the given build type and
    clone URL, and one where r has no clone URL. *)
Definition one_repository (kind url : string) : gmap string RepoConf :=
  {[ "r" := mkRepoConf (Some kind) (Some url) None ]}.

Definition no_source : gmap string RepoConf :=
  {[ "r" := mkRepoConf (Some "localbuild") None None ]}.

Definition ssh_with_port : string := "ssh://git@host.example:2222/repo.git".

(** * Proofs *)

(** ** Running a script *)

(** One statement after the other: the equations of the monad. *)
Lemma run_bind {A B : Type} (m : script A) (f : A -> script B) (w : world) :
  (m ≫= f) w =
    match m w with
    | (Normal a, w') => f a w'
    | (SystemExit, w') => (SystemExit, w')
    | (Raised e, w') => (Raised e, w')
    end.
Proof. reflexivity. Qed.

Lemma run_ret {A : Type} (a : A) (w : world) :
  (mret a : script A) w = (Normal a, w).
Proof. reflexivity. Qed.

(** Run the primitives of the process and of the robot on a known state. *)
Ltac run_prims :=
  lazy beta iota zeta delta
    [sys.argv_pop0 sys.argv_len
     bot.SetParameter bot.GetRepoData bot.Exclusive bot.ExtendNamespace bot.AddTask
     bot.SpawnTask bot.Say bot.Log bot.note
     argv parameters locks trace fst snd
     Z.of_nat Z.ltb Z.compare negb].

Ltac simpl_prims := run_prims; cbn [length]; run_prims.

(** Run a script statement by statement, as far as the state is known. *)
Ltac step :=
  unfold ends, calls, gopherci, localbuild, localtrusted, command,
    read_name, exit, raise;
  simpl_prims;
  repeat (first [rewrite run_bind | rewrite run_ret]; simpl_prims).

(** The cases of well-formed arguments: none, or two and more. *)
Ltac by_arguments deps Hdeps :=
  let deprepo := fresh "deprepo" in
  let depbranch := fresh "depbranch" in
  unfold well_formed in Hdeps;
  destruct deps as [|deprepo [|depbranch deps]]; [| done |].

Ltac trace_tail :=
  rewrite <- ?app_assoc; cbn [app]; rewrite ?drop_app_length.

(** ** The patterns *)

Section Patterns.

Example ssh_url_with_user_and_port :
  host_and_port (Re.match_ ssh_url_re "ssh://git@host.example:2222/repo.git")
  = Some (PyStr "host.example", PyStr "2222").
Proof. vm_compute. reflexivity. Qed.

Example ssh_url_without_port :
  host_and_port (Re.match_ ssh_url_re "ssh://host.example/repo.git")
  = Some (PyStr "host.example", PyNone).
Proof. vm_compute. reflexivity. Qed.

(** An empty port is captured, and is false when tested. *)
Example ssh_url_with_empty_port :
  host_and_port (Re.match_ ssh_url_re "ssh://git@host:/repo.git")
  = Some (PyStr "host", PyStr EmptyString).
Proof. vm_compute. reflexivity. Qed.

(** The user part is greedy: it runs up to the last at-sign. *)
Example ssh_url_with_two_at_signs :
  host_and_port (Re.match_ ssh_url_re "ssh://a@b@host:22/repo.git")
  = Some (PyStr "host", PyStr "22").
Proof. vm_compute. reflexivity. Qed.

Example scp_like_url_is_no_ssh_url :
  Re.match_ ssh_url_re "git@host:repo.git" = None.
Proof. vm_compute. reflexivity. Qed.

Example scp_like_url :
  host_and_port (Re.match_ scp_like_re "git@host:repo.git")
  = Some (PyStr "host", PyNone).
Proof. vm_compute. reflexivity. Qed.

Example scp_like_re_on_a_path :
  host_and_port (Re.match_ scp_like_re "/srv/git/repo.git")
  = Some (PyStr EmptyString, PyNone).
Proof. vm_compute. reflexivity. Qed.

(** A star never fails when what follows it cannot fail. *)
Lemma star_total {R : Type} (cls : ascii -> bool) (k : string -> option R) (s : string) :
  (forall s', is_Some (k s')) -> is_Some (Re.star cls s k).
Proof.
  intros Hk. induction s as [|c s IH]; cbn; [done |].
  destruct (cls c); [| done].
  destruct (Re.star cls s k); [done | apply Hk].
Qed.

(** An optional group never fails when what follows it cannot fail. *)
Lemma opt_total (r : Re.regex) (s : string) (g : gmap nat string)
    (k : string -> gmap nat string -> option (gmap nat string)) :
  is_Some (k s g) -> is_Some (Re.run (Re.Opt r) s g k).
Proof. intros Hk. cbn. by destruct (Re.run r s g k). Qed.

(** The second pattern of [localbuild.py] matches every string: the user
    part is optional and the host may be empty. *)
Lemma scp_like_re_total (s : string) : is_Some (Re.match_ scp_like_re s).
Proof.
  unfold Re.match_, scp_like_re.
  change (is_Some (Re.run (Re.Opt (Re.Seq (Re.StarClass Re.dot) (Re.Lit "@"))) s ∅
            (fun s' g' => Re.run (Re.Group 1 (Re.StarClass (Re.none_of ":/"))) s' g'
                            (fun _ g => Some g)))).
  apply opt_total. cbn. by apply star_total.
Qed.

(** So lines 58 to 70 add no host-key task exactly for the clone URLs that
    start with http, and the two of them for every other one. *)
Lemma host_key_task_names (url : string) :
  task_names (host_key_tasks url) =
    if startswith url "http" then [] else ["ssh-init"; "ssh-scan"].
Proof.
  unfold host_key_tasks.
  destruct (startswith url "http"); [done |]. cbn [negb].
  destruct (Re.match_ ssh_url_re url) as [m|].
  - by destruct (truthy (Re.group m 2)).
  - by destruct (scp_like_re_total url) as [m ->].
Qed.

Lemma host_key_tasks_no_sync (url : string) :
  sync_keys (host_key_tasks url) = [].
Proof.
  unfold host_key_tasks.
  destruct (negb _); [| done].
  destruct (Re.match_ ssh_url_re url) as [m|].
  - by destruct (truthy (Re.group m 2)).
  - by destruct (Re.match_ scp_like_re url).
Qed.

End Patterns.

(** ** Runs of the jobs *)

(** The calls and the end of a run whose result is known. *)
Lemma run_calls {A : Type} (job : script A) (w : world) o av ps ls cs :
  job w = (o, mkWorld av ps ls (trace w ++ cs)) ->
  ends job w = o /\ calls job w = cs.
Proof.
  intros Hrun. unfold ends, calls. rewrite Hrun. cbn.
  by rewrite drop_app_length.
Qed.

Section Localbuild.
Variable repodata : gmap string RepoConf.

Lemma ssh_tasks_run (url : string) (w : world) :
  ssh_tasks url w =
    (Normal tt,
     mkWorld (argv w) (parameters w) (locks w)
       (trace w ++ host_key_tasks url)).
Proof.
  destruct w as [av ps ls tr]. unfold host_key_tasks, ssh_tasks. step.
  destruct (startswith url "http"); step; [by rewrite app_nil_r |].
  destruct (Re.match_ ssh_url_re url) as [m|]; step.
  - destruct (truthy (Re.group m 2)); step; by trace_tail.
  - destruct (Re.match_ scp_like_re url) as [m|]; step;
      [by trace_tail | by rewrite app_nil_r].
Qed.

(** The lock is held: warning, exit. *)
Lemma localbuild_held w exe repository branch deps conf url :
  argv w = command exe (repository :: branch :: deps) ->
  well_formed deps ->
  repodata !! repository = Some conf ->
  clone_url conf = Some url ->
  repobranch repository branch ∈ locks w ->
  localbuild repodata w =
    (SystemExit,
     mkWorld (drop 2 deps)
       (set_metadata repository branch deps (parameters w))
       (locks w)
       (trace w ++ metadata repository branch deps
          ++ [GetRepoData;
              Exclusive (repobranch repository branch) false false;
              Log "Warn" (already_in_progress (repobranch repository branch))])).
Proof.
  intros Hargv Hdeps Hconf Hurl Hheld.
  destruct w as [av ps ls tr]; cbn in Hargv, Hheld; subst av.
  unfold repobranch, already_in_progress in *.
  by_arguments deps Hdeps;
    step; rewrite Hconf; step; rewrite Hurl; step;
    (destruct (decide _) as [_|Hfree]; [| done]);
    step; trace_tail; done.
Qed.

(** The lock is free: it is taken, the namespace is extended and the
    pipeline is filled. *)
Lemma localbuild_free w exe repository branch deps conf url :
  argv w = command exe (repository :: branch :: deps) ->
  well_formed deps ->
  repodata !! repository = Some conf ->
  clone_url conf = Some url ->
  repobranch repository branch ∉ locks w ->
  localbuild repodata w =
    (Normal tt,
     mkWorld (drop 2 deps)
       (set_metadata repository branch deps (parameters w))
       ({[repobranch repository branch]} ∪ locks w)
       (trace w ++ metadata repository branch deps
          ++ [GetRepoData;
              Exclusive (repobranch repository branch) false true;
              ExtendNamespace (repobranch repository branch) (retention conf)]
          ++ host_key_tasks url
          ++ [AddTask "git-sync"
                [PyStr url; PyStr branch;
                 PyStr (repobranch repository branch); PyStr "true"];
              AddTask "runpipeline" [];
              AddTask "cleanup" []])).
Proof.
  intros Hargv Hdeps Hconf Hurl Hfree.
  destruct w as [av ps ls tr]; cbn in Hargv, Hfree; subst av.
  unfold repobranch, retention in *.
  by_arguments deps Hdeps;
    step; rewrite Hconf; step; rewrite Hurl; step;
    (destruct (decide _) as [Hheld|_]; [done |]);
    step; rewrite ssh_tasks_run; step;
    trace_tail; done.
Qed.

(** No [clone_url]: one message, exit. *)
Lemma localbuild_no_clone_url w exe repository branch deps conf :
  argv w = command exe (repository :: branch :: deps) ->
  well_formed deps ->
  repodata !! repository = Some conf ->
  clone_url conf = None ->
  localbuild repodata w =
    (SystemExit,
     mkWorld (drop 2 deps)
       (set_metadata repository branch deps (parameters w))
       (locks w)
       (trace w ++ metadata repository branch deps
          ++ [GetRepoData; Say (no_clone_url repository)])).
Proof.
  intros Hargv Hdeps Hconf Hurl.
  destruct w as [av ps ls tr]; cbn in Hargv; subst av.
  unfold no_clone_url.
  by_arguments deps Hdeps;
    step; rewrite Hconf; step; rewrite Hurl; step; trace_tail; done.
Qed.

(** The repository is not in the data: [repoconf] was never assigned. *)
Lemma localbuild_not_listed w exe repository branch deps :
  argv w = command exe (repository :: branch :: deps) ->
  well_formed deps ->
  repodata !! repository = None ->
  localbuild repodata w =
    (Raised (NameError "repoconf"),
     mkWorld (drop 2 deps)
       (set_metadata repository branch deps (parameters w))
       (locks w)
       (trace w ++ metadata repository branch deps ++ [GetRepoData])).
Proof.
  intros Hargv Hdeps Hconf.
  destruct w as [av ps ls tr]; cbn in Hargv; subst av.
  by_arguments deps Hdeps;
    step; rewrite Hconf; step; trace_tail; done.
Qed.
End Localbuild.

Section Localtrusted.
Variable repodata : gmap string RepoConf.

Lemma localtrusted_listed w exe repository branch rest conf url :
  argv w = command exe (repository :: branch :: rest) ->
  repodata !! repository = Some conf ->
  clone_url conf = Some url ->
  localtrusted repodata w =
    (Normal tt,
     mkWorld rest (parameters w) (locks w)
       (trace w
          ++ [ExtendNamespace repository (retention conf);
              AddTask "git-sync"
                [PyStr url; PyStr branch; PyStr repository; PyStr "true"];
              AddTask "localexec" [PyStr ".gopherci/pipeline.sh"]])).
Proof.
  intros Hargv Hconf Hurl.
  destruct w as [av ps ls tr]; cbn in Hargv; subst av.
  unfold retention.
  step; rewrite Hconf; step; rewrite Hurl; step; trace_tail; done.
Qed.

Lemma localtrusted_no_clone_url w exe repository branch rest conf :
  argv w = command exe (repository :: branch :: rest) ->
  repodata !! repository = Some conf ->
  clone_url conf = None ->
  localtrusted repodata w =
    (SystemExit,
     mkWorld rest (parameters w) (locks w)
       (trace w ++ [Say (no_clone_url repository)])).
Proof.
  intros Hargv Hconf Hurl.
  destruct w as [av ps ls tr]; cbn in Hargv; subst av.
  unfold no_clone_url.
  step; rewrite Hconf; step; rewrite Hurl; step; done.
Qed.

Lemma localtrusted_not_listed w exe repository branch rest :
  argv w = command exe (repository :: branch :: rest) ->
  repodata !! repository = None ->
  localtrusted repodata w =
    (Raised (NameError "repoconf"),
     mkWorld rest (parameters w) (locks w) (trace w)).
Proof.
  intros Hargv Hconf.
  destruct w as [av ps ls tr]; cbn in Hargv; subst av.
  step; rewrite Hconf; step; done.
Qed.
End Localtrusted.

Section Gopherci.
Variable repodata : gmap string RepoConf.

Lemma gopherci_not_listed w exe repository branch rest :
  argv w = command exe (repository :: branch :: rest) ->
  repodata !! repository = None ->
  gopherci repodata w =
    (SystemExit,
     mkWorld rest (parameters w) (locks w)
       (trace w ++ [Log "Debug" (not_listed repository)])).
Proof.
  intros Hargv Hconf.
  destruct w as [av ps ls tr]; cbn in Hargv; subst av.
  unfold not_listed.
  step; rewrite Hconf; step; done.
Qed.

Lemma gopherci_no_type w exe repository branch rest conf :
  argv w = command exe (repository :: branch :: rest) ->
  repodata !! repository = Some conf ->
  type conf = None ->
  gopherci repodata w =
    (SystemExit,
     mkWorld rest (parameters w) (locks w)
       (trace w ++ [Say (no_type repository)])).
Proof.
  intros Hargv Hconf Htype.
  destruct w as [av ps ls tr]; cbn in Hargv; subst av.
  unfold no_type.
  step; rewrite Hconf; step; rewrite Htype; step; done.
Qed.

Lemma gopherci_none w exe repository branch rest conf :
  argv w = command exe (repository :: branch :: rest) ->
  repodata !! repository = Some conf ->
  type conf = Some "none" ->
  gopherci repodata w =
    (SystemExit,
     mkWorld rest (parameters w) (locks w)
       (trace w ++ [Log "Debug" (type_is_none repository)])).
Proof.
  intros Hargv Hconf Htype.
  destruct w as [av ps ls tr]; cbn in Hargv; subst av.
  unfold type_is_none.
  step; rewrite Hconf; step; rewrite Htype; step; done.
Qed.

Lemma gopherci_spawns w exe repository branch rest conf repotype :
  argv w = command exe (repository :: branch :: rest) ->
  repodata !! repository = Some conf ->
  type conf = Some repotype ->
  repotype <> "none" ->
  gopherci repodata w =
    (Normal tt,
     mkWorld rest (parameters w) (locks w)
       (trace w ++ [SpawnTask repotype [PyStr repository; PyStr branch]])).
Proof.
  intros Hargv Hconf Htype Hnone.
  destruct w as [av ps ls tr]; cbn in Hargv; subst av.
  step; rewrite Hconf; step; rewrite Htype; step.
  destruct (String.eqb_spec repotype "none") as [|_]; [done |].
  step; done.
Qed.
End Gopherci.

(** * Properties of the jobs *)

(** ** Lock contention in the standard build type *)

(** C3. In the standard build type, when the non-blocking acquisition of
    the lock for the key repository/branch finds the lock held, the run
    ends in [exit()] right after one warning: the failed acquisition and
    the warning are the last two calls, only the metadata parameters and
    the reading of the repository data come before them, and no task is added, no namespace is extended, no handler
    is spawned and nothing is said. *)
Theorem localbuild_lock_held repodata w exe repository branch deps conf url :
  argv w = command exe (repository :: branch :: deps) ->
  well_formed deps ->
  repodata !! repository = Some conf ->
  clone_url conf = Some url ->
  repobranch repository branch ∈ locks w ->
  let key := repobranch repository branch in
  let cs := calls (localbuild repodata) w in
  ends (localbuild repodata) w = SystemExit /\
  cs = (metadata repository branch deps
        ++ [GetRepoData;
            Exclusive key false false;
            Log "Warn" (already_in_progress key)])%list /\
  logs cs = [("Warn", already_in_progress key)] /\
  tasks cs = [] /\
  namespace_keys cs = [] /\
  spawns cs = [] /\
  says cs = [].
Proof.
  intros Hargv Hdeps Hconf Hurl Hheld key cs. subst cs.
  destruct (run_calls _ _ _ _ _ _ _
              (localbuild_held repodata _ _ _ _ _ _ _ Hargv Hdeps Hconf Hurl Hheld))
    as [-> ->].
  by_arguments deps Hdeps; repeat split.
Qed.

Lemma localbuild_lock_held_witness :
  let repodata := one_repository "localbuild" "https://host/r.git" in
  let w := start (command "localbuild.py" ["r"; "b"]) {[ "r/b" ]} in
  ends (localbuild repodata) w = SystemExit /\
  logs (calls (localbuild repodata) w)
    = [("Warn", "Build of 'r/b' already in progress, exiting")] /\
  tasks (calls (localbuild repodata) w) = [].
Proof.
  intros repodata w.
  destruct (localbuild_lock_held repodata w "localbuild.py" "r" "b" []
              (mkRepoConf (Some "localbuild") (Some "https://host/r.git") None)
              "https://host/r.git")
    as (Hend & _ & Hlogs & Htasks & _).
  - reflexivity.
  - unfold well_formed. simpl. lia.
  - reflexivity.
  - reflexivity.
  - vm_compute. reflexivity.
  - split; [exact Hend | split; [exact Hlogs | exact Htasks]].
Defined.

(** C4, as the code has it. When the standard build type finds the lock
    held and exits, the lock table is as it was, no namespace was extended
    and no task was added; but the metadata parameters were set before the
    lock was tried: GOPHERCI_REPO and GOPHERCI_BRANCH hold the repository
    and the branch of the attempt that gave up (and the dependency
    parameters are set as well when a dependency was given). *)
Theorem lock_held_abort_effects repodata w exe repository branch deps conf url :
  argv w = command exe (repository :: branch :: deps) ->
  well_formed deps ->
  repodata !! repository = Some conf ->
  clone_url conf = Some url ->
  repobranch repository branch ∈ locks w ->
  let w' := snd (localbuild repodata w) in
  let cs := calls (localbuild repodata) w in
  ends (localbuild repodata) w = SystemExit /\
  parameters w' = set_metadata repository branch deps (parameters w) /\
  parameters w' !! "GOPHERCI_REPO" = Some repository /\
  parameters w' !! "GOPHERCI_BRANCH" = Some branch /\
  locks w' = locks w /\
  namespace_keys cs = [] /\
  tasks cs = [].
Proof.
  intros Hargv Hdeps Hconf Hurl Hheld w' cs. subst w' cs.
  pose proof (localbuild_held repodata _ _ _ _ _ _ _ Hargv Hdeps Hconf Hurl Hheld)
    as Hrun.
  destruct (run_calls _ _ _ _ _ _ _ Hrun) as [-> ->].
  rewrite Hrun. cbn [snd parameters locks].
  by_arguments deps Hdeps; cbn [set_metadata]; repeat split;
    by simplify_map_eq.
Qed.

Lemma lock_held_abort_effects_witness :
  let repodata := one_repository "localbuild" "https://host/r.git" in
  let w := start (command "localbuild.py" ["r"; "b"; "dep"; "main"]) {[ "r/b" ]} in
  parameters (snd (localbuild repodata w)) !! "GOPHERCI_REPO" = Some "r" /\
  locks (snd (localbuild repodata w)) = {[ "r/b" ]}.
Proof.
  intros repodata w.
  destruct (lock_held_abort_effects repodata w "localbuild.py" "r" "b"
              ["dep"; "main"]
              (mkRepoConf (Some "localbuild") (Some "https://host/r.git") None)
              "https://host/r.git")
    as (_ & _ & Hrepo & _ & Hlocks & _).
  - reflexivity.
  - unfold well_formed. simpl. lia.
  - reflexivity.
  - reflexivity.
  - vm_compute. reflexivity.
  - split; [exact Hrepo | exact Hlocks].
Defined.

(** C4, as stated, fails: with the lock for r/b held, the run that gives up
    leaves parameters behind that were not there before. *)
Lemma localbuild_abort_sets_parameters :
  let repodata := one_repository "localbuild" "https://host/r.git" in
  let w := start (command "localbuild.py" ["r"; "b"]) {[ "r/b" ]} in
  ends (localbuild repodata) w = SystemExit /\
  parameters w !! "GOPHERCI_REPO" = None /\
  parameters (snd (localbuild repodata w)) !! "GOPHERCI_REPO" = Some "r" /\
  parameters (snd (localbuild repodata w)) <> parameters w.
Proof.
  intros repodata w.
  assert (Hafter : parameters (snd (localbuild repodata w)) !! "GOPHERCI_REPO"
                   = Some "r") by (vm_compute; reflexivity).
  split; [vm_compute; reflexivity |].
  split; [vm_compute; reflexivity |].
  split; [exact Hafter |].
  intros Hsame. rewrite Hsame in Hafter. vm_compute in Hafter. discriminate.
Qed.

(** ** A repository without a clone URL *)

(** C7. For a repository whose entry has no [clone_url], each build type
    says exactly one message and ends in [exit()] right there: the message
    is the last call, the lock is not tried, no namespace is extended and
    no task is added. *)
Theorem missing_clone_url repodata w exe repository branch deps conf :
  argv w = command exe (repository :: branch :: deps) ->
  well_formed deps ->
  repodata !! repository = Some conf ->
  clone_url conf = None ->
  (let cs := calls (localbuild repodata) w in
   ends (localbuild repodata) w = SystemExit /\
   says cs = [no_clone_url repository] /\
   last cs = Some (Say (no_clone_url repository)) /\
   lock_keys cs = [] /\ namespace_keys cs = [] /\ tasks cs = []) /\
  (let cs := calls (localtrusted repodata) w in
   ends (localtrusted repodata) w = SystemExit /\
   says cs = [no_clone_url repository] /\
   last cs = Some (Say (no_clone_url repository)) /\
   lock_keys cs = [] /\ namespace_keys cs = [] /\ tasks cs = []).
Proof.
  intros Hargv Hdeps Hconf Hurl. split; intros cs; subst cs.
  - destruct (run_calls _ _ _ _ _ _ _
                (localbuild_no_clone_url repodata _ _ _ _ _ _ Hargv Hdeps Hconf Hurl))
      as [-> ->].
    by_arguments deps Hdeps; repeat split.
  - destruct (run_calls _ _ _ _ _ _ _
                (localtrusted_no_clone_url repodata _ _ _ _ _ _ Hargv Hconf Hurl))
      as [-> ->].
    repeat split.
Qed.

Lemma missing_clone_url_witness :
  let w := start (command "job.py" ["r"; "b"]) ∅ in
  says (calls (localbuild no_source) w)
    = ["No 'clone_url' specified for 'r' in repositories.yaml"] /\
  says (calls (localtrusted no_source) w)
    = ["No 'clone_url' specified for 'r' in repositories.yaml"].
Proof.
  intros w.
  destruct (missing_clone_url no_source w "job.py" "r" "b" []
              (mkRepoConf (Some "localbuild") None None))
    as ((_ & Hbuild & _) & (_ & Htrusted & _)).
  - reflexivity.
  - unfold well_formed. simpl. lia.
  - reflexivity.
  - reflexivity.
  - split; [exact Hbuild | exact Htrusted].
Defined.

(** ** A repository that is not in the data *)

(** C10. For a repository that is not in the repository data, both build
    types read the name [repoconf] without ever having assigned it: the
    run ends in a [NameError] for that name at the [clone_url] test, nothing
    is said, the lock is not tried and no task is added. *)
Theorem unlisted_repository_raises_NameError repodata w exe repository branch deps :
  argv w = command exe (repository :: branch :: deps) ->
  well_formed deps ->
  repodata !! repository = None ->
  (let cs := calls (localbuild repodata) w in
   ends (localbuild repodata) w = Raised (NameError "repoconf") /\
   says cs = [] /\ lock_keys cs = [] /\ namespace_keys cs = [] /\ tasks cs = []) /\
  (let cs := calls (localtrusted repodata) w in
   ends (localtrusted repodata) w = Raised (NameError "repoconf") /\
   cs = []).
Proof.
  intros Hargv Hdeps Hconf. split; intros cs; subst cs.
  - destruct (run_calls _ _ _ _ _ _ _
                (localbuild_not_listed repodata _ _ _ _ _ Hargv Hdeps Hconf))
      as [-> ->].
    by_arguments deps Hdeps; repeat split.
  - pose proof (localtrusted_not_listed repodata _ _ _ _ _ Hargv Hconf) as Hrun.
    rewrite <- (app_nil_r (trace w)) in Hrun.
    by destruct (run_calls _ _ _ _ _ _ _ Hrun) as [-> ->].
Qed.

Lemma unlisted_repository_raises_NameError_witness :
  let w := start (command "job.py" ["other"; "b"]) ∅ in
  ends (localbuild no_source) w = Raised (NameError "repoconf") /\
  ends (localtrusted no_source) w = Raised (NameError "repoconf").
Proof.
  intros w.
  destruct (unlisted_repository_raises_NameError no_source w "job.py" "other" "b" [])
    as ((Hbuild & _) & (Htrusted & _)).
  - reflexivity.
  - unfold well_formed. simpl. lia.
  - reflexivity.
  - split; [exact Hbuild | exact Htrusted].
Defined.

(** ** The lock and the namespace *)

(** In the standard build type a namespace is extended only by a run that
    has just acquired the lock for the same key: the successful
    [Exclusive] call comes right before the [ExtendNamespace] call. *)
Lemma localbuild_extends_after_acquiring repodata w exe repository branch deps conf url :
  argv w = command exe (repository :: branch :: deps) ->
  well_formed deps ->
  repodata !! repository = Some conf ->
  clone_url conf = Some url ->
  let key := repobranch repository branch in
  let cs := calls (localbuild repodata) w in
  namespace_keys cs <> [] ->
  (key ∉ locks w) /\
  exists before after,
    cs = (before ++ [Exclusive key false true; ExtendNamespace key (retention conf)]
            ++ after)%list /\
    namespace_keys before = [] /\ namespace_keys after = [].
Proof.
  intros Hargv Hdeps Hconf Hurl key cs. subst cs.
  destruct (decide (key ∈ locks w)) as [Hheld|Hfree].
  - destruct (run_calls _ _ _ _ _ _ _
                (localbuild_held repodata _ _ _ _ _ _ _ Hargv Hdeps Hconf Hurl Hheld))
      as [_ ->].
    by_arguments deps Hdeps; done.
  - destruct (run_calls _ _ _ _ _ _ _
                (localbuild_free repodata _ _ _ _ _ _ _ Hargv Hdeps Hconf Hurl Hfree))
      as [_ ->].
    intros _. split; [done |].
    exists (metadata repository branch deps ++ [GetRepoData])%list.
    eexists. split; [by rewrite <- app_assoc |]. split.
    + by_arguments deps Hdeps; done.
    + unfold namespace_keys. rewrite omap_app.
      apply app_nil. split; [| done].
      unfold host_key_tasks.
      destruct (negb _); [| done].
      destruct (Re.match_ ssh_url_re url) as [m|].
      * by destruct (truthy (Re.group m 2)).
      * by destruct (Re.match_ scp_like_re url).
Qed.

(** C1, at the input where the code departs from it. The local-trusted
    build type extends the namespace without trying any lock: here other
    builds hold the locks for r and for r/b, the run makes no [Exclusive]
    call, leaves the lock table as it was, and still extends the namespace
    of r and fills the pipeline. *)
Theorem localtrusted_extends_without_lock :
  let repodata := one_repository "localtrusted" "https://host/r.git" in
  let w := start (command "localtrusted.py" ["r"; "b"]) {[ "r"; "r/b" ]} in
  let cs := calls (localtrusted repodata) w in
  ends (localtrusted repodata) w = Normal tt /\
  cs = [ExtendNamespace "r" 7;
        AddTask "git-sync"
          [PyStr "https://host/r.git"; PyStr "b"; PyStr "r"; PyStr "true"];
        AddTask "localexec" [PyStr ".gopherci/pipeline.sh"]] /\
  lock_keys cs = [] /\
  locks (snd (localtrusted repodata w)) = locks w.
Proof.
  intros repodata w cs. subst cs.
  assert (Hrun := localtrusted_listed repodata w "localtrusted.py" "r" "b" []
                    (mkRepoConf (Some "localtrusted") (Some "https://host/r.git") None)
                    "https://host/r.git" eq_refl eq_refl eq_refl).
  destruct (run_calls _ _ _ _ _ _ _ Hrun) as [-> ->].
  rewrite Hrun. repeat split.
Qed.

(** ** The pipeline of the local-trusted build type *)

(** C2, as the code has it. For a listed repository with a clone URL, of
    whatever form, the local-trusted build type adds exactly two tasks: the
    clone, with the arguments clone URL, branch, repository and true, and
    the local execution of the pipeline script .gopherci/pipeline.sh. It
    adds no host-key task and no cleanup task. *)
Theorem localtrusted_pipeline repodata w exe repository branch rest conf url :
  argv w = command exe (repository :: branch :: rest) ->
  repodata !! repository = Some conf ->
  clone_url conf = Some url ->
  ends (localtrusted repodata) w = Normal tt /\
  tasks (calls (localtrusted repodata) w) =
    [("git-sync", [PyStr url; PyStr branch; PyStr repository; PyStr "true"]);
     ("localexec", [PyStr ".gopherci/pipeline.sh"])].
Proof.
  intros Hargv Hconf Hurl.
  by destruct (run_calls _ _ _ _ _ _ _
                 (localtrusted_listed repodata _ _ _ _ _ _ _ Hargv Hconf Hurl))
    as [-> ->].
Qed.

Lemma localtrusted_pipeline_witness :
  let repodata := one_repository "localtrusted" "git@host:repo.git" in
  let w := start (command "localtrusted.py" ["r"; "b"]) ∅ in
  tasks (calls (localtrusted repodata) w) =
    [("git-sync", [PyStr "git@host:repo.git"; PyStr "b"; PyStr "r"; PyStr "true"]);
     ("localexec", [PyStr ".gopherci/pipeline.sh"])].
Proof.
  intros repodata w.
  destruct (localtrusted_pipeline repodata w "localtrusted.py" "r" "b" []
              (mkRepoConf (Some "localtrusted") (Some "git@host:repo.git") None)
              "git@host:repo.git")
    as (_ & Htasks).
  - reflexivity.
  - reflexivity.
  - reflexivity.
  - exact Htasks.
Defined.

(** C2, as stated, fails: for the clone URL git@host:repo.git the
    local-trusted build type adds the clone and the local execution only;
    the task list does not start with ssh-init and ssh-scan. *)
Lemma localtrusted_adds_no_host_key_tasks :
  let repodata := one_repository "localtrusted" "git@host:repo.git" in
  let w := start (command "localtrusted.py" ["r"; "b"]) ∅ in
  task_names (calls (localtrusted repodata) w) = ["git-sync"; "localexec"] /\
  task_names (calls (localtrusted repodata) w)
    <> ["ssh-init"; "ssh-scan"; "git-sync"; "localexec"].
Proof.
  intros repodata w.
  assert (Hrun := localtrusted_listed repodata w "localtrusted.py" "r" "b" []
                    (mkRepoConf (Some "localtrusted") (Some "git@host:repo.git") None)
                    "git@host:repo.git" eq_refl eq_refl eq_refl).
  destruct (run_calls _ _ _ _ _ _ _ Hrun) as [_ ->].
  split; [reflexivity | discriminate].
Qed.

(** ** The build key *)

(** C5, as the code has it. For a listed repository with a clone URL, the
    standard build type tries the lock for the single key
    repository/branch and, once it holds it, uses that key for the
    namespace and as the key of the clone task. The local-trusted build
    type uses the repository identifier alone, without the branch, for the
    namespace and as the key of the clone task. *)
Theorem build_keys repodata w exe repository branch deps conf url :
  argv w = command exe (repository :: branch :: deps) ->
  well_formed deps ->
  repodata !! repository = Some conf ->
  clone_url conf = Some url ->
  let key := repobranch repository branch in
  (let cs := calls (localbuild repodata) w in
   lock_keys cs = [key] /\
   (key ∉ locks w ->
    namespace_keys cs = [key] /\ sync_keys cs = [PyStr key])) /\
  (let cs := calls (localtrusted repodata) w in
   namespace_keys cs = [repository] /\ sync_keys cs = [PyStr repository]).
Proof.
  intros Hargv Hdeps Hconf Hurl key. split; intros cs; subst cs.
  - destruct (decide (key ∈ locks w)) as [Hheld|Hfree].
    + destruct (run_calls _ _ _ _ _ _ _
                  (localbuild_held repodata _ _ _ _ _ _ _ Hargv Hdeps Hconf Hurl Hheld))
        as [_ ->].
      by_arguments deps Hdeps; done.
    + destruct (run_calls _ _ _ _ _ _ _
                  (localbuild_free repodata _ _ _ _ _ _ _ Hargv Hdeps Hconf Hurl Hfree))
        as [_ ->].
      assert (Hlock : lock_keys (host_key_tasks url) = []).
      { unfold host_key_tasks.
        destruct (negb _); [| done].
        destruct (Re.match_ ssh_url_re url) as [m|].
        - by destruct (truthy (Re.group m 2)).
        - by destruct (Re.match_ scp_like_re url). }
      assert (Hspace : namespace_keys (host_key_tasks url) = []).
      { unfold host_key_tasks.
        destruct (negb _); [| done].
        destruct (Re.match_ ssh_url_re url) as [m|].
        - by destruct (truthy (Re.group m 2)).
        - by destruct (Re.match_ scp_like_re url). }
      pose proof (host_key_tasks_no_sync url) as Hsync.
      unfold lock_keys, namespace_keys, sync_keys in *.
      rewrite !omap_app, Hlock, Hspace, Hsync.
      by_arguments deps Hdeps; done.
  - by destruct (run_calls _ _ _ _ _ _ _
                   (localtrusted_listed repodata _ _ _ _ _ _ _ Hargv Hconf Hurl))
      as [_ ->].
Qed.

Lemma build_keys_witness :
  let repodata := one_repository "localbuild" "https://host/r.git" in
  let w := start (command "job.py" ["r"; "b"]) ∅ in
  lock_keys (calls (localbuild repodata) w) = ["r/b"] /\
  namespace_keys (calls (localtrusted repodata) w) = ["r"].
Proof.
  intros repodata w.
  destruct (build_keys repodata w "job.py" "r" "b" []
              (mkRepoConf (Some "localbuild") (Some "https://host/r.git") None)
              "https://host/r.git")
    as ((Hlock & _) & (Hspace & _)).
  - reflexivity.
  - unfold well_formed. simpl. lia.
  - reflexivity.
  - reflexivity.
  - split; [exact Hlock | exact Hspace].
Defined.

(** C5, as stated, fails: for the repository r and the branch b the
    local-trusted build type extends the namespace of r and gives r to the
    clone task, not r/b. *)
Lemma localtrusted_key_is_the_repository :
  let repodata := one_repository "localtrusted" "https://host/r.git" in
  let w := start (command "localtrusted.py" ["r"; "b"]) ∅ in
  let cs := calls (localtrusted repodata) w in
  namespace_keys cs = ["r"] /\
  sync_keys cs = [PyStr "r"] /\
  namespace_keys cs <> [repobranch "r" "b"] /\
  sync_keys cs <> [PyStr (repobranch "r" "b")].
Proof.
  intros repodata w cs. subst cs.
  assert (Hrun := localtrusted_listed repodata w "localtrusted.py" "r" "b" []
                    (mkRepoConf (Some "localtrusted") (Some "https://host/r.git") None)
                    "https://host/r.git" eq_refl eq_refl eq_refl).
  destruct (run_calls _ _ _ _ _ _ _ Hrun) as [_ ->].
  repeat split; discriminate.
Qed.

(** ** Host-key tasks in the standard build type *)

Lemma task_names_tasks (cs : list call) : task_names cs = (tasks cs).*1.
Proof.
  induction cs as [|c cs IH]; [done |].
  destruct c; cbn; try exact IH. f_equal. exact IH.
Qed.

(** The tasks of a run of the standard build type that acquires the lock:
    the host-key tasks, the clone, the pipeline, the cleanup. *)
Lemma localbuild_tasks repodata w exe repository branch deps conf url :
  argv w = command exe (repository :: branch :: deps) ->
  well_formed deps ->
  repodata !! repository = Some conf ->
  clone_url conf = Some url ->
  repobranch repository branch ∉ locks w ->
  ends (localbuild repodata) w = Normal tt /\
  tasks (calls (localbuild repodata) w) =
    (tasks (host_key_tasks url)
     ++ [("git-sync",
          [PyStr url; PyStr branch; PyStr (repobranch repository branch);
           PyStr "true"]);
         ("runpipeline", []);
         ("cleanup", [])])%list.
Proof.
  intros Hargv Hdeps Hconf Hurl Hfree.
  destruct (run_calls _ _ _ _ _ _ _
              (localbuild_free repodata _ _ _ _ _ _ _ Hargv Hdeps Hconf Hurl Hfree))
    as [-> ->].
  split; [done |].
  unfold tasks. rewrite !omap_app.
  by_arguments deps Hdeps; done.
Qed.

(** X25. The looser pattern matches every string, its host group possibly
    empty, so no clone URL misses both SSH patterns. In a run of the
    standard build type that acquires the lock, no host-key task is added
    exactly when the clone URL starts with http; for every other clone URL
    ssh-init and ssh-scan are added first. Either way the clone task
    follows with the clone URL as it is, then the pipeline and the
    cleanup. *)
Theorem host_key_tasks_unless_http repodata w exe repository branch deps conf url :
  argv w = command exe (repository :: branch :: deps) ->
  well_formed deps ->
  repodata !! repository = Some conf ->
  clone_url conf = Some url ->
  repobranch repository branch ∉ locks w ->
  let cs := calls (localbuild repodata) w in
  Re.match_ scp_like_re url <> None /\
  task_names cs =
    ((if startswith url "http" then [] else ["ssh-init"; "ssh-scan"])
     ++ ["git-sync"; "runpipeline"; "cleanup"])%list /\
  exists host_key,
    tasks cs =
      (host_key
       ++ [("git-sync",
            [PyStr url; PyStr branch; PyStr (repobranch repository branch);
             PyStr "true"]);
           ("runpipeline", []);
           ("cleanup", [])])%list /\
    host_key.*1 = if startswith url "http" then [] else ["ssh-init"; "ssh-scan"].
Proof.
  intros Hargv Hdeps Hconf Hurl Hfree cs. subst cs.
  destruct (localbuild_tasks repodata _ _ _ _ _ _ _ Hargv Hdeps Hconf Hurl Hfree)
    as [_ Htasks].
  split; [| split].
  - destruct (scp_like_re_total url) as [m ->]. done.
  - rewrite task_names_tasks, Htasks, fmap_app.
    by rewrite <- task_names_tasks, host_key_task_names.
  - exists (tasks (host_key_tasks url)). split; [done |].
    by rewrite <- task_names_tasks, host_key_task_names.
Qed.

Lemma host_key_tasks_unless_http_witness :
  let repodata := one_repository "localbuild" "https://host/repo.git" in
  let w := start (command "localbuild.py" ["r"; "b"]) ∅ in
  task_names (calls (localbuild repodata) w)
    = ["git-sync"; "runpipeline"; "cleanup"].
Proof.
  intros repodata w.
  destruct (host_key_tasks_unless_http repodata w "localbuild.py" "r" "b" []
              (mkRepoConf (Some "localbuild") (Some "https://host/repo.git") None)
              "https://host/repo.git")
    as (_ & Hnames & _).
  - reflexivity.
  - unfold well_formed. simpl. lia.
  - reflexivity.
  - reflexivity.
  - vm_compute. intros H. discriminate H.
  - exact Hnames.
Defined.

(** C6, at the input where the code departs from it. The branch that adds
    no host-key task for a clone URL that is neither HTTP nor SSH hangs on
    the test of the second match (line 68), and that test never fails:
    every string matches the looser pattern, with an empty host when the
    string names none. So the local path /srv/git/repo.git, which does not
    start with http, is not of the ssh:// form and names no host, is given
    ssh-init and ssh-scan with an empty host in front of the clone, where
    the clone alone was meant. *)
Lemma permissive_fallback_is_never_taken :
  (forall url, Re.match_ scp_like_re url <> None) /\
  let url := "/srv/git/repo.git" in
  let repodata := one_repository "localbuild" url in
  let w := start (command "localbuild.py" ["r"; "b"]) ∅ in
  startswith url "http" = false /\
  Re.match_ ssh_url_re url = None /\
  (fun m => Re.group m 1) <$> Re.match_ scp_like_re url
    = Some (PyStr EmptyString) /\
  tasks (calls (localbuild repodata) w) =
    [("ssh-init", []);
     ("ssh-scan", [PyStr EmptyString]);
     ("git-sync", [PyStr url; PyStr "b"; PyStr "r/b"; PyStr "true"]);
     ("runpipeline", []);
     ("cleanup", [])].
Proof.
  split.
  - intros url. by destruct (scp_like_re_total url) as [m ->].
  - repeat split; vm_compute; reflexivity.
Qed.

(** ** The SSH clone URL with a port *)

Lemma ssh_with_port_host_key_tasks :
  host_key_tasks ssh_with_port =
    [AddTask "ssh-init" [];
     AddTask "ssh-scan" [PyStr "-p"; PyStr "2222"; PyStr "host.example"]].
Proof. vm_compute. reflexivity. Qed.

(** C9. The clone URL ssh://git@host.example:2222/repo.git does not start
    with http and matches the ssh:// pattern with host host.example and
    port 2222; for it a run of the standard build type that acquires the
    lock adds, in this order, ssh-init without arguments, ssh-scan with
    -p, 2222, host.example, the clone with the clone URL, the branch, the
    key repository/branch and true, the pipeline run without arguments
    and, last, the cleanup without arguments. *)
Theorem ssh_with_port_pipeline repodata w exe repository branch deps conf :
  argv w = command exe (repository :: branch :: deps) ->
  well_formed deps ->
  repodata !! repository = Some conf ->
  clone_url conf = Some ssh_with_port ->
  repobranch repository branch ∉ locks w ->
  startswith ssh_with_port "http" = false /\
  (exists m, Re.match_ ssh_url_re ssh_with_port = Some m /\
             Re.group m 1 = PyStr "host.example" /\
             Re.group m 2 = PyStr "2222") /\
  ends (localbuild repodata) w = Normal tt /\
  tasks (calls (localbuild repodata) w) =
    [("ssh-init", []);
     ("ssh-scan", [PyStr "-p"; PyStr "2222"; PyStr "host.example"]);
     ("git-sync",
      [PyStr ssh_with_port; PyStr branch;
       PyStr (repository +:+ "/" +:+ branch); PyStr "true"]);
     ("runpipeline", []);
     ("cleanup", [])].
Proof.
  intros Hargv Hdeps Hconf Hurl Hfree.
  destruct (localbuild_tasks repodata _ _ _ _ _ _ _ Hargv Hdeps Hconf Hurl Hfree)
    as [Hend Htasks].
  split; [by vm_compute |].
  split.
  - destruct (Re.match_ ssh_url_re ssh_with_port) as [m|] eqn:Hm;
      [| by vm_compute in Hm].
    exists m. split; [done |].
    injection Hm as <-. split; by vm_compute.
  - split; [done |].
    by rewrite Htasks, ssh_with_port_host_key_tasks.
Qed.

Lemma ssh_with_port_pipeline_witness :
  let repodata := one_repository "localbuild" ssh_with_port in
  let w := start (command "localbuild.py" ["r"; "b"]) ∅ in
  tasks (calls (localbuild repodata) w) =
    [("ssh-init", []);
     ("ssh-scan", [PyStr "-p"; PyStr "2222"; PyStr "host.example"]);
     ("git-sync", [PyStr ssh_with_port; PyStr "b"; PyStr "r/b"; PyStr "true"]);
     ("runpipeline", []);
     ("cleanup", [])].
Proof.
  intros repodata w.
  destruct (ssh_with_port_pipeline repodata w "localbuild.py" "r" "b" []
              (mkRepoConf (Some "localbuild") (Some ssh_with_port) None))
    as (_ & _ & _ & Htasks).
  - reflexivity.
  - unfold well_formed. simpl. lia.
  - reflexivity.
  - reflexivity.
  - vm_compute. intros H. discriminate H.
  - exact Htasks.
Defined.

(** ** The dispatcher *)

(** Take apart what is known about the entry of the repository and close
    the cases that contradict it. *)
Ltac entry_cases :=
  intros;
  repeat match goal with
         | H : ex _ |- _ => destruct H
         | H : _ /\ _ |- _ => destruct H
         end;
  simplify_eq;
  try congruence.

(** C8. For an update of a repository and a branch the dispatcher spawns
    at most one handler, and it spawns one exactly when the repository is
    listed, its entry has a type and the type is not none; the handler is
    then the one named by the type, with the repository and the branch as
    they came as its arguments, and that is the only call. For a
    repository that is not listed the run ends in [exit()] after a single
    Debug diagnostic: nothing is said, nothing is spawned, no task is
    added. *)
Theorem gopherci_dispatch repodata w exe repository branch rest :
  argv w = command exe (repository :: branch :: rest) ->
  let cs := calls (gopherci repodata) w in
  ((exists handler, spawns cs = [handler]) <->
   (exists conf repotype,
      repodata !! repository = Some conf /\
      type conf = Some repotype /\
      repotype <> "none")) /\
  (List.length (spawns cs) <= 1)%nat /\
  (forall conf repotype,
     repodata !! repository = Some conf ->
     type conf = Some repotype ->
     repotype <> "none" ->
     ends (gopherci repodata) w = Normal tt /\
     cs = [SpawnTask repotype [PyStr repository; PyStr branch]]) /\
  (repodata !! repository = None ->
   ends (gopherci repodata) w = SystemExit /\
   cs = [Log "Debug" (not_listed repository)] /\
   says cs = [] /\ spawns cs = [] /\ tasks cs = []).
Proof.
  intros Hargv cs. subst cs.
  destruct (repodata !! repository) as [conf|] eqn:Hconf.
  - destruct (type conf) as [repotype|] eqn:Htype.
    + destruct (decide (repotype = "none")) as [->|Hnone].
      * destruct (run_calls _ _ _ _ _ _ _
                    (gopherci_none repodata _ _ _ _ _ _ Hargv Hconf Htype))
          as [-> ->].
        split_and!; cbn; [split; entry_cases | lia | entry_cases | done].
      * destruct (run_calls _ _ _ _ _ _ _
                    (gopherci_spawns repodata _ _ _ _ _ _ _ Hargv Hconf Htype Hnone))
          as [-> ->].
        split_and!; cbn; [split; entry_cases | lia | entry_cases | done].
        -- by exists conf, repotype.
        -- by eexists.
        -- split; congruence.
    + destruct (run_calls _ _ _ _ _ _ _
                  (gopherci_no_type repodata _ _ _ _ _ _ Hargv Hconf Htype))
        as [-> ->].
      split_and!; cbn; [split; entry_cases | lia | entry_cases | done].
  - destruct (run_calls _ _ _ _ _ _ _
                (gopherci_not_listed repodata _ _ _ _ _ Hargv Hconf))
      as [-> ->].
    split_and!; cbn; [split; entry_cases | lia | entry_cases | done].
Qed.

Lemma gopherci_dispatch_witness :
  let repodata := one_repository "localbuild" "https://host/r.git" in
  let w := start (command "gopherci.py" ["r"; "main"]) ∅ in
  calls (gopherci repodata) w = [SpawnTask "localbuild" [PyStr "r"; PyStr "main"]] /\
  calls (gopherci repodata) (start (command "gopherci.py" ["other"; "main"]) ∅)
    = [Log "Debug" "Ignoring update on 'other', not listed in repositories.yaml"].
Proof.
  intros repodata w. split.
  - destruct (gopherci_dispatch repodata w "gopherci.py" "r" "main" [] eq_refl)
      as (_ & _ & Hspawn & _).
    destruct (Hspawn (mkRepoConf (Some "localbuild") (Some "https://host/r.git") None)
                "localbuild") as [_ Hcalls].
    + reflexivity.
    + reflexivity.
    + intros H. discriminate H.
    + exact Hcalls.
  - destruct (gopherci_dispatch repodata
                (start (command "gopherci.py" ["other"; "main"]) ∅)
                "gopherci.py" "other" "main" [] eq_refl)
      as (_ & _ & _ & Hmissing).
    destruct Hmissing as (_ & Hcalls & _).
    + reflexivity.
    + exact Hcalls.
Defined.

(** * Further properties of the jobs *)

(** ** Too few arguments *)

(** A script that starts with three [sys.argv.pop(0)] and is given fewer
    than three words: the pop that finds the list empty raises, and the
    robot has not been called. *)
Ltac too_few_arguments w Hargv :=
  let av := fresh "av" in
  destruct w as [av ? ? ?]; cbn in Hargv;
  destruct av as [|? [|? [|? ?]]]; [| | | cbn in Hargv; lia];
  step; rewrite ?drop_all; done.

(** X3. Started with fewer than two arguments after its own path, the
    dispatcher ends in an [IndexError] of [pop] and has made no call on the
    robot: nothing is logged, said or spawned. *)
Theorem gopherci_too_few_arguments repodata w :
  (List.length (argv w) < 3)%nat ->
  ends (gopherci repodata) w = Raised (IndexError "pop from empty list") /\
  calls (gopherci repodata) w = [].
Proof. intros Hargv. too_few_arguments w Hargv. Qed.

Lemma gopherci_too_few_arguments_witness :
  calls (gopherci no_source) (start (command "gopherci.py" ["r"]) ∅) = [].
Proof.
  destruct (gopherci_too_few_arguments no_source
              (start (command "gopherci.py" ["r"]) ∅)) as [_ Hcalls].
  - simpl. lia.
  - exact Hcalls.
Defined.

(** X5. Started with fewer than two arguments after its own path, the
    standard build type ends in an [IndexError] of [pop] before it has set
    any parameter or made any other call on the robot. *)
Theorem localbuild_too_few_arguments repodata w :
  (List.length (argv w) < 3)%nat ->
  ends (localbuild repodata) w = Raised (IndexError "pop from empty list") /\
  calls (localbuild repodata) w = [] /\
  parameters (snd (localbuild repodata w)) = parameters w.
Proof. intros Hargv. too_few_arguments w Hargv. Qed.

Lemma localbuild_too_few_arguments_witness :
  calls (localbuild no_source) (start (command "localbuild.py" ["r"]) ∅) = [].
Proof.
  destruct (localbuild_too_few_arguments no_source
              (start (command "localbuild.py" ["r"]) ∅)) as (_ & Hcalls & _).
  - simpl. lia.
  - exact Hcalls.
Defined.

(** X24. Started with fewer than two arguments after its own path, the
    local-trusted build type ends in an [IndexError] of [pop] and has made
    no call on the robot. *)
Theorem localtrusted_too_few_arguments repodata w :
  (List.length (argv w) < 3)%nat ->
  ends (localtrusted repodata) w = Raised (IndexError "pop from empty list") /\
  calls (localtrusted repodata) w = [].
Proof. intros Hargv. too_few_arguments w Hargv. Qed.

Lemma localtrusted_too_few_arguments_witness :
  calls (localtrusted no_source) (start (command "localtrusted.py" []) ∅) = [].
Proof.
  destruct (localtrusted_too_few_arguments no_source
              (start (command "localtrusted.py" []) ∅)) as [_ Hcalls].
  - simpl. lia.
  - exact Hcalls.
Defined.

(** ** The dispatcher's other ways out *)

(** X1. For a listed repository whose entry has no type, the dispatcher
    says one message that names the repository and ends in [exit()]; that
    message is its only call, so nothing is spawned. *)
Theorem gopherci_missing_type repodata w exe repository branch rest conf :
  argv w = command exe (repository :: branch :: rest) ->
  repodata !! repository = Some conf ->
  type conf = None ->
  ends (gopherci repodata) w = SystemExit /\
  calls (gopherci repodata) w = [Say ("No 'type' specified for " +:+ repository)].
Proof.
  intros Hargv Hconf Htype.
  by destruct (run_calls _ _ _ _ _ _ _
                 (gopherci_no_type repodata _ _ _ _ _ _ Hargv Hconf Htype))
    as [-> ->].
Qed.

Lemma gopherci_missing_type_witness :
  let repodata : gmap string RepoConf :=
    {[ "r" := mkRepoConf None (Some "https://host/r.git") None ]} in
  calls (gopherci repodata) (start (command "gopherci.py" ["r"; "main"]) ∅)
  = [Say "No 'type' specified for r"].
Proof.
  intros repodata.
  destruct (gopherci_missing_type repodata
              (start (command "gopherci.py" ["r"; "main"]) ∅)
              "gopherci.py" "r" "main" []
              (mkRepoConf None (Some "https://host/r.git") None))
    as [_ Hcalls].
  - reflexivity.
  - reflexivity.
  - reflexivity.
  - exact Hcalls.
Defined.

(** X2. For a listed repository of type none, the dispatcher logs one Debug
    diagnostic and ends in [exit()]; that is its only call, so nothing is
    said and nothing is spawned. *)
Theorem gopherci_opted_out repodata w exe repository branch rest conf :
  argv w = command exe (repository :: branch :: rest) ->
  repodata !! repository = Some conf ->
  type conf = Some "none" ->
  ends (gopherci repodata) w = SystemExit /\
  calls (gopherci repodata) w =
    [Log "Debug"
       ("Ignoring update on '" +:+ repository +:+ "', repository type is 'none'")].
Proof.
  intros Hargv Hconf Htype.
  by destruct (run_calls _ _ _ _ _ _ _
                 (gopherci_none repodata _ _ _ _ _ _ Hargv Hconf Htype))
    as [-> ->].
Qed.

Lemma gopherci_opted_out_witness :
  calls (gopherci (one_repository "none" "https://host/r.git"))
    (start (command "gopherci.py" ["r"; "main"]) ∅)
  = [Log "Debug" "Ignoring update on 'r', repository type is 'none'"].
Proof.
  destruct (gopherci_opted_out (one_repository "none" "https://host/r.git")
              (start (command "gopherci.py" ["r"; "main"]) ∅)
              "gopherci.py" "r" "main" []
              (mkRepoConf (Some "none") (Some "https://host/r.git") None))
    as [_ Hcalls].
  - reflexivity.
  - reflexivity.
  - reflexivity.
  - exact Hcalls.
Defined.

(** Every run of the dispatcher, whatever its arguments and the repository
    data: it pops at most three words, and makes at most one call, which is
    a diagnostic, a message or the spawning of a handler. *)
Lemma gopherci_runs repodata w :
  exists o cs,
    gopherci repodata w =
      (o, mkWorld (drop 3 (argv w)) (parameters w) (locks w) (trace w ++ cs)) /\
    (cs = [] \/
     (exists text, cs = [Log "Debug" text]) \/
     (exists text, cs = [Say text]) \/
     (exists name args, cs = [SpawnTask name args])).
Proof.
  destruct w as [av ps ls tr].
  destruct av as [|exe [|repository [|branch rest]]].
  1-3: eexists _, []; split; [step; by rewrite app_nil_r | by left].
  set (w := mkWorld _ _ _ _).
  assert (Hargv : argv w = command exe (repository :: branch :: rest)) by done.
  destruct (repodata !! repository) as [conf|] eqn:Hconf.
  - destruct (type conf) as [repotype|] eqn:Htype.
    + destruct (decide (repotype = "none")) as [->|Hnone].
      * eexists _, _. split;
          [apply (gopherci_none repodata _ _ _ _ _ _ Hargv Hconf Htype) |].
        right; left. by eexists.
      * eexists _, _. split;
          [apply (gopherci_spawns repodata _ _ _ _ _ _ _ Hargv Hconf Htype Hnone) |].
        right; right; right. by eexists _, _.
    + eexists _, _. split;
        [apply (gopherci_no_type repodata _ _ _ _ _ _ Hargv Hconf Htype) |].
      right; right; left. by eexists.
  - eexists _, _. split;
      [apply (gopherci_not_listed repodata _ _ _ _ _ Hargv Hconf) |].
    right; left. by eexists.
Qed.

(** X4. Whatever its arguments and whatever the repository data, a run of
    the dispatcher leaves the parameters and the lock table as they were,
    makes at most one call on the robot, and never adds a task, tries a
    lock, extends a namespace or sets a parameter. *)
Theorem gopherci_only_dispatches repodata w :
  let w' := snd (gopherci repodata w) in
  let cs := calls (gopherci repodata) w in
  parameters w' = parameters w /\
  locks w' = locks w /\
  (List.length cs <= 1)%nat /\
  tasks cs = [] /\
  lock_keys cs = [] /\
  namespace_keys cs = [] /\
  (forall name value, SetParameter name value ∉ cs).
Proof.
  intros w' cs. subst w' cs.
  destruct (gopherci_runs repodata w) as (o & cs & Hrun & Hcs).
  destruct (run_calls _ _ _ _ _ _ _ Hrun) as [_ ->].
  rewrite Hrun. cbn [snd parameters locks].
  destruct Hcs as [->|[[text ->]|[[text ->]|(name & args & ->)]]];
    split_and!; try done; cbn; try lia;
    intros name' value Hin; apply list_elem_of_singleton in Hin || apply elem_of_nil in Hin;
    done.
Qed.

(** ** The arguments of the standard build type *)

(** X6. Started with exactly three arguments, that is with the repository
    of a triggering build but without its branch, the standard build type
    ends in an [IndexError] of [pop]: GOPHERCI_REPO and GOPHERCI_BRANCH have
    been set by then, and these are its only calls; no dependency parameter
    is set, the repository data is not read and the lock is not tried. *)
Theorem localbuild_odd_dependency repodata w exe repository branch deprepo :
  argv w = command exe [repository; branch; deprepo] ->
  let w' := snd (localbuild repodata w) in
  ends (localbuild repodata) w = Raised (IndexError "pop from empty list") /\
  calls (localbuild repodata) w =
    [SetParameter "GOPHERCI_REPO" repository;
     SetParameter "GOPHERCI_BRANCH" branch] /\
  parameters w' =
    <["GOPHERCI_BRANCH" := branch]> (<["GOPHERCI_REPO" := repository]> (parameters w)) /\
  locks w' = locks w.
Proof.
  intros Hargv.
  destruct w as [av ps ls tr]; cbn in Hargv; subst av.
  step. trace_tail. done.
Qed.

Lemma localbuild_odd_dependency_witness :
  ends (localbuild no_source) (start (command "localbuild.py" ["r"; "b"; "dep"]) ∅)
  = Raised (IndexError "pop from empty list").
Proof.
  destruct (localbuild_odd_dependency no_source
              (start (command "localbuild.py" ["r"; "b"; "dep"]) ∅)
              "localbuild.py" "r" "b" "dep") as [Hend _].
  - reflexivity.
  - exact Hend.
Defined.

(** The four ways a run of the standard build type with well-formed
    arguments can go: the repository is not listed, it has no clone URL,
    the lock is held, the lock is free. *)
Ltac localbuild_paths repodata w repository branch Hargv Hdeps Hrun :=
  let conf := fresh "conf" in
  let url := fresh "url" in
  let Hconf := fresh "Hconf" in
  let Hurl := fresh "Hurl" in
  let Hheld := fresh "Hheld" in
  let Hfree := fresh "Hfree" in
  destruct (repodata !! repository) as [conf|] eqn:Hconf;
  [ destruct (clone_url conf) as [url|] eqn:Hurl;
    [ destruct (decide (repobranch repository branch ∈ locks w)) as [Hheld|Hfree];
      [ pose proof (localbuild_held repodata _ _ _ _ _ _ _
                      Hargv Hdeps Hconf Hurl Hheld) as Hrun
      | pose proof (localbuild_free repodata _ _ _ _ _ _ _
                      Hargv Hdeps Hconf Hurl Hfree) as Hrun ]
    | pose proof (localbuild_no_clone_url repodata _ _ _ _ _ _
                    Hargv Hdeps Hconf Hurl) as Hrun ]
  | pose proof (localbuild_not_listed repodata _ _ _ _ _
                  Hargv Hdeps Hconf) as Hrun ].

(** X7. With well-formed arguments the standard build type records the
    metadata of the build whatever the repository data says and however the
    run ends: GOPHERCI_REPO and GOPHERCI_BRANCH hold the repository and the
    branch; for a build triggered by another one GOPHERCI_DEPBUILD is true
    and GOPHERCI_DEPREPO and GOPHERCI_DEPBRANCH hold the third and the
    fourth argument; for a primary build these three are left as they
    were. *)
Theorem localbuild_records_metadata repodata w exe repository branch deps :
  argv w = command exe (repository :: branch :: deps) ->
  well_formed deps ->
  let ps' := parameters (snd (localbuild repodata w)) in
  ps' !! "GOPHERCI_REPO" = Some repository /\
  ps' !! "GOPHERCI_BRANCH" = Some branch /\
  match deps with
  | deprepo :: depbranch :: _ =>
      ps' !! "GOPHERCI_DEPBUILD" = Some "true" /\
      ps' !! "GOPHERCI_DEPREPO" = Some deprepo /\
      ps' !! "GOPHERCI_DEPBRANCH" = Some depbranch
  | _ =>
      ps' !! "GOPHERCI_DEPBUILD" = parameters w !! "GOPHERCI_DEPBUILD" /\
      ps' !! "GOPHERCI_DEPREPO" = parameters w !! "GOPHERCI_DEPREPO" /\
      ps' !! "GOPHERCI_DEPBRANCH" = parameters w !! "GOPHERCI_DEPBRANCH"
  end.
Proof.
  intros Hargv Hdeps ps'. subst ps'.
  assert (Hps : parameters (snd (localbuild repodata w))
                = set_metadata repository branch deps (parameters w)).
  { localbuild_paths repodata w repository branch Hargv Hdeps Hrun;
      by rewrite Hrun. }
  rewrite Hps. clear Hps.
  by_arguments deps Hdeps; cbn [set_metadata]; split_and!; by simplify_map_eq.
Qed.

Lemma localbuild_records_metadata_witness :
  parameters (snd (localbuild no_source
                     (start (command "localbuild.py" ["r"; "b"; "lib"; "main"]) ∅)))
    !! "GOPHERCI_DEPREPO" = Some "lib".
Proof.
  destruct (localbuild_records_metadata no_source
              (start (command "localbuild.py" ["r"; "b"; "lib"; "main"]) ∅)
              "localbuild.py" "r" "b" ["lib"; "main"])
    as (_ & _ & _ & Hdeprepo & _).
  - reflexivity.
  - unfold well_formed. simpl. lia.
  - exact Hdeprepo.
Defined.

(** ** Taking the lock *)

(** The host-key tasks try no lock and extend no namespace. *)
Lemma host_key_tasks_keep_off (url : string) :
  lock_keys (host_key_tasks url) = [] /\
  namespace_keys (host_key_tasks url) = [] /\
  extensions (host_key_tasks url) = [].
Proof.
  unfold host_key_tasks.
  destruct (negb _); [| done].
  destruct (Re.match_ ssh_url_re url) as [m|].
  - by destruct (truthy (Re.group m 2)).
  - by destruct (Re.match_ scp_like_re url).
Qed.

(** The lock and the namespace in a run that finds the lock free. *)
Lemma localbuild_free_keys repodata w exe repository branch deps conf url :
  argv w = command exe (repository :: branch :: deps) ->
  well_formed deps ->
  repodata !! repository = Some conf ->
  clone_url conf = Some url ->
  repobranch repository branch ∉ locks w ->
  let key := repobranch repository branch in
  let cs := calls (localbuild repodata) w in
  ends (localbuild repodata) w = Normal tt /\
  locks (snd (localbuild repodata w)) = {[key]} ∪ locks w /\
  lock_keys cs = [key] /\
  namespace_keys cs = [key] /\
  extensions cs = [(key, retention conf)].
Proof.
  intros Hargv Hdeps Hconf Hurl Hfree key cs. subst cs key.
  pose proof (localbuild_free repodata _ _ _ _ _ _ _ Hargv Hdeps Hconf Hurl Hfree)
    as Hrun.
  destruct (run_calls _ _ _ _ _ _ _ Hrun) as [-> ->].
  rewrite Hrun. cbn [snd locks].
  destruct (host_key_tasks_keep_off url) as (Hlock & Hspace & Hext).
  unfold lock_keys, namespace_keys, extensions in *.
  rewrite !omap_app, Hlock, Hspace, Hext.
  by_arguments deps Hdeps; done.
Qed.

(** X8. When the lock for repository/branch is free, a run of the standard
    build type for a listed repository with a clone URL ends normally with
    that key, and nothing else, added to the lock table, and has extended
    exactly one namespace, that of the key, with the retention the entry
    gives as [keep_history], or 7 when the entry gives none. *)
Theorem localbuild_acquires repodata w exe repository branch deps conf url :
  argv w = command exe (repository :: branch :: deps) ->
  well_formed deps ->
  repodata !! repository = Some conf ->
  clone_url conf = Some url ->
  repobranch repository branch ∉ locks w ->
  let key := repobranch repository branch in
  let cs := calls (localbuild repodata) w in
  ends (localbuild repodata) w = Normal tt /\
  locks (snd (localbuild repodata w)) = {[key]} ∪ locks w /\
  lock_keys cs = [key] /\
  extensions cs =
    [(key, match keep_history conf with Some keep => keep | None => 7 end)].
Proof.
  intros Hargv Hdeps Hconf Hurl Hfree key cs. subst cs key.
  destruct (localbuild_free_keys repodata _ _ _ _ _ _ _ Hargv Hdeps Hconf Hurl Hfree)
    as (Hend & Hlocks & Hlock & _ & Hext).
  by split_and!.
Qed.

Lemma localbuild_acquires_witness :
  let repodata : gmap string RepoConf :=
    {[ "r" := mkRepoConf (Some "localbuild") (Some "https://host/r.git") (Some 3) ]} in
  extensions (calls (localbuild repodata) (start (command "localbuild.py" ["r"; "b"]) ∅))
  = [("r/b", 3)].
Proof.
  intros repodata.
  destruct (localbuild_acquires repodata
              (start (command "localbuild.py" ["r"; "b"]) ∅)
              "localbuild.py" "r" "b" []
              (mkRepoConf (Some "localbuild") (Some "https://host/r.git") (Some 3))
              "https://host/r.git")
    as (_ & _ & _ & Hext).
  - reflexivity.
  - unfold well_formed. simpl. lia.
  - reflexivity.
  - reflexivity.
  - vm_compute. intros H. discriminate H.
  - exact Hext.
Defined.

(** X9. Two builds of the same repository and branch: once a run of the
    standard build type has taken the lock, a second run for the same
    repository and branch on the same robot, whatever its dependency
    arguments, ends in [exit()] with the warning, adds no task, extends no
    namespace and leaves the lock table as the first run left it. *)
Theorem second_build_is_dropped repodata w exe repository branch deps conf url
    exe2 deps2 :
  argv w = command exe (repository :: branch :: deps) ->
  well_formed deps ->
  well_formed deps2 ->
  repodata !! repository = Some conf ->
  clone_url conf = Some url ->
  repobranch repository branch ∉ locks w ->
  let w1 := snd (localbuild repodata w) in
  let w2 := next_job (command exe2 (repository :: branch :: deps2)) w1 in
  let cs := calls (localbuild repodata) w2 in
  ends (localbuild repodata) w2 = SystemExit /\
  logs cs = [("Warn", already_in_progress (repobranch repository branch))] /\
  tasks cs = [] /\
  extensions cs = [] /\
  locks (snd (localbuild repodata w2)) = locks w1.
Proof.
  intros Hargv Hdeps Hdeps2 Hconf Hurl Hfree w1 w2 cs. subst cs.
  assert (Hheld : repobranch repository branch ∈ locks w2).
  { subst w2 w1.
    rewrite (localbuild_free repodata _ _ _ _ _ _ _ Hargv Hdeps Hconf Hurl Hfree).
    cbn. apply elem_of_union_l. by apply elem_of_singleton. }
  assert (Hargv2 : argv w2 = command exe2 (repository :: branch :: deps2)) by done.
  pose proof (localbuild_held repodata _ _ _ _ _ _ _ Hargv2 Hdeps2 Hconf Hurl Hheld)
    as Hrun.
  destruct (run_calls _ _ _ _ _ _ _ Hrun) as [-> ->].
  rewrite Hrun. cbn [snd locks].
  by_arguments deps2 Hdeps2; done.
Qed.

Lemma second_build_is_dropped_witness :
  let repodata := one_repository "localbuild" "https://host/r.git" in
  let w1 := snd (localbuild repodata (start (command "localbuild.py" ["r"; "b"]) ∅)) in
  ends (localbuild repodata) (next_job (command "localbuild.py" ["r"; "b"]) w1)
  = SystemExit.
Proof.
  intros repodata w1.
  destruct (second_build_is_dropped repodata
              (start (command "localbuild.py" ["r"; "b"]) ∅)
              "localbuild.py" "r" "b" []
              (mkRepoConf (Some "localbuild") (Some "https://host/r.git") None)
              "https://host/r.git" "localbuild.py" [])
    as [Hend _].
  - reflexivity.
  - unfold well_formed. simpl. lia.
  - unfold well_formed. simpl. lia.
  - reflexivity.
  - reflexivity.
  - vm_compute. intros H. discriminate H.
  - exact Hend.
Defined.

(** X10. Builds with different keys do not block one another: after a run
    of the standard build type has taken the lock for one key, a run on the
    same robot whose key is another one, free before, takes its own lock,
    extends its own namespace and ends normally. *)
Theorem other_build_is_not_blocked repodata w
    exe repository branch deps conf url
    exe2 repository2 branch2 deps2 conf2 url2 :
  argv w = command exe (repository :: branch :: deps) ->
  well_formed deps ->
  well_formed deps2 ->
  repodata !! repository = Some conf ->
  clone_url conf = Some url ->
  repodata !! repository2 = Some conf2 ->
  clone_url conf2 = Some url2 ->
  repobranch repository branch ∉ locks w ->
  repobranch repository2 branch2 ∉ locks w ->
  repobranch repository2 branch2 <> repobranch repository branch ->
  let w1 := snd (localbuild repodata w) in
  let w2 := next_job (command exe2 (repository2 :: branch2 :: deps2)) w1 in
  ends (localbuild repodata) w2 = Normal tt /\
  namespace_keys (calls (localbuild repodata) w2) = [repobranch repository2 branch2] /\
  locks (snd (localbuild repodata w2))
  = {[repobranch repository2 branch2]} ∪ ({[repobranch repository branch]} ∪ locks w).
Proof.
  intros Hargv Hdeps Hdeps2 Hconf Hurl Hconf2 Hurl2 Hfree Hfree2 Hne w1 w2.
  assert (Hlocks : locks w2 = {[repobranch repository branch]} ∪ locks w).
  { subst w2 w1.
    by rewrite (localbuild_free repodata _ _ _ _ _ _ _ Hargv Hdeps Hconf Hurl Hfree). }
  assert (Hfree' : repobranch repository2 branch2 ∉ locks w2).
  { rewrite Hlocks. apply not_elem_of_union. split; [| done].
    by apply not_elem_of_singleton. }
  assert (Hargv2 : argv w2 = command exe2 (repository2 :: branch2 :: deps2)) by done.
  destruct (localbuild_free_keys repodata _ _ _ _ _ _ _
              Hargv2 Hdeps2 Hconf2 Hurl2 Hfree') as (Hend & Hl & _ & Hspace & _).
  split; [exact Hend |]. split; [exact Hspace |].
  by rewrite Hl, Hlocks.
Qed.

Lemma other_build_is_not_blocked_witness :
  let w1 := snd (localbuild two_repositories
                   (start (command "localbuild.py" ["r"; "b"]) ∅)) in
  ends (localbuild two_repositories) (next_job (command "localbuild.py" ["s"; "b"]) w1)
  = Normal tt.
Proof.
  intros w1.
  destruct (other_build_is_not_blocked two_repositories
              (start (command "localbuild.py" ["r"; "b"]) ∅)
              "localbuild.py" "r" "b" []
              (mkRepoConf (Some "localbuild") (Some "https://host/r.git") None)
              "https://host/r.git"
              "localbuild.py" "s" "b" []
              (mkRepoConf (Some "localbuild") (Some "https://host/s.git") None)
              "https://host/s.git")
    as [Hend _].
  - reflexivity.
  - unfold well_formed. simpl. lia.
  - unfold well_formed. simpl. lia.
  - vm_compute. reflexivity.
  - reflexivity.
  - vm_compute. reflexivity.
  - reflexivity.
  - vm_compute. intros H. discriminate H.
  - vm_compute. intros H. discriminate H.
  - vm_compute. intros H. discriminate H.
  - exact Hend.
Defined.

(** ** The build key *)

Lemma string_app_nil (s : string) : EmptyString +:+ s = s.
Proof. reflexivity. Qed.

Lemma string_app_cons (c : ascii) (s1 s2 : string) :
  String c s1 +:+ s2 = String c (s1 +:+ s2).
Proof. reflexivity. Qed.

Lemma string_app_assoc (s1 s2 s3 : string) :
  (s1 +:+ s2) +:+ s3 = s1 +:+ (s2 +:+ s3).
Proof.
  induction s1 as [|c s1 IH]; [done |].
  by rewrite !string_app_cons, IH.
Qed.

(** X11. The key does not tell a slash in the repository from a slash in
    the branch: the repository repository/x with the branch b and the
    repository repository with the branch x/b have the same key. So once a
    run of the standard build type has taken the lock for the first, a
    build of the second on the same robot is dropped as already in
    progress, without a task. *)
Theorem keys_collide_across_the_slash repodata w
    exe repository x branch deps conf url exe2 deps2 conf2 url2 :
  let repository1 := repository +:+ "/" +:+ x in
  let branch2 := x +:+ "/" +:+ branch in
  argv w = command exe (repository1 :: branch :: deps) ->
  well_formed deps ->
  well_formed deps2 ->
  repodata !! repository1 = Some conf ->
  clone_url conf = Some url ->
  repodata !! repository = Some conf2 ->
  clone_url conf2 = Some url2 ->
  repobranch repository1 branch ∉ locks w ->
  let w1 := snd (localbuild repodata w) in
  let w2 := next_job (command exe2 (repository :: branch2 :: deps2)) w1 in
  repobranch repository1 branch = repobranch repository branch2 /\
  ends (localbuild repodata) w2 = SystemExit /\
  logs (calls (localbuild repodata) w2)
  = [("Warn", already_in_progress (repobranch repository1 branch))] /\
  tasks (calls (localbuild repodata) w2) = [].
Proof.
  intros repository1 branch2 Hargv Hdeps Hdeps2 Hconf Hurl Hconf2 Hurl2 Hfree w1 w2.
  assert (Hkey : repobranch repository1 branch = repobranch repository branch2).
  { unfold repobranch, repository1, branch2. by rewrite !string_app_assoc. }
  split; [exact Hkey |].
  assert (Hheld : repobranch repository branch2 ∈ locks w2).
  { rewrite <- Hkey. subst w2 w1.
    rewrite (localbuild_free repodata _ _ _ _ _ _ _ Hargv Hdeps Hconf Hurl Hfree).
    cbn. apply elem_of_union_l. by apply elem_of_singleton. }
  assert (Hargv2 : argv w2 = command exe2 (repository :: branch2 :: deps2)) by done.
  pose proof (localbuild_held repodata _ _ _ _ _ _ _ Hargv2 Hdeps2 Hconf2 Hurl2 Hheld)
    as Hrun.
  destruct (run_calls _ _ _ _ _ _ _ Hrun) as [-> ->].
  rewrite Hkey.
  by_arguments deps2 Hdeps2; done.
Qed.

Lemma keys_collide_across_the_slash_witness :
  let w1 := snd (localbuild nested_repositories
                   (start (command "localbuild.py" ["org/app"; "main"]) ∅)) in
  ends (localbuild nested_repositories)
    (next_job (command "localbuild.py" ["org"; "app/main"]) w1)
  = SystemExit.
Proof.
  intros w1.
  destruct (keys_collide_across_the_slash nested_repositories
              (start (command "localbuild.py" ["org/app"; "main"]) ∅)
              "localbuild.py" "org" "app" "main" []
              (mkRepoConf (Some "localbuild") (Some "https://host/app.git") None)
              "https://host/app.git"
              "localbuild.py" []
              (mkRepoConf (Some "localbuild") (Some "https://host/org.git") None)
              "https://host/org.git")
    as (_ & Hend & _).
  - reflexivity.
  - unfold well_formed. simpl. lia.
  - unfold well_formed. simpl. lia.
  - vm_compute. reflexivity.
  - reflexivity.
  - vm_compute. reflexivity.
  - reflexivity.
  - vm_compute. intros H. discriminate H.
  - exact Hend.
Defined.

(** X12. Among repository identifiers without a slash the key is faithful:
    two builds have the same key only if they are builds of the same
    repository and the same branch, whatever the branches look like. *)
Theorem key_is_faithful_without_slash repository1 branch1 repository2 branch2 :
  slash_free repository1 = true ->
  slash_free repository2 = true ->
  repobranch repository1 branch1 = repobranch repository2 branch2 ->
  repository1 = repository2 /\ branch1 = branch2.
Proof.
  unfold repobranch.
  revert repository2.
  induction repository1 as [|c1 r1 IH]; intros [|c2 r2] Hfree1 Hfree2 Hkey;
    rewrite ?string_app_cons, ?string_app_nil in Hkey;
    cbn [slash_free] in Hfree1, Hfree2.
  - by injection Hkey as ->.
  - injection Hkey as <- _. by rewrite Ascii.eqb_refl in Hfree2.
  - injection Hkey as -> _. by rewrite Ascii.eqb_refl in Hfree1.
  - injection Hkey as -> Hkey.
    apply andb_prop in Hfree1 as [_ Hfree1].
    apply andb_prop in Hfree2 as [_ Hfree2].
    by destruct (IH r2 Hfree1 Hfree2 Hkey) as [-> ->].
Qed.

Lemma key_is_faithful_without_slash_witness :
  "app" = "app" /\ "feature/x" = "feature/x".
Proof.
  apply (key_is_faithful_without_slash "app" "feature/x" "app" "feature/x");
    reflexivity.
Defined.

(** ** What the standard build type never does *)

Lemma localbuild_quiet_or_acquires repodata w :
  quiet w (localbuild repodata w) \/
  exists key cs,
    (key ∉ locks w) /\
    locks (snd (localbuild repodata w)) = {[key]} ∪ locks w /\
    trace (snd (localbuild repodata w)) = (trace w ++ cs)%list /\
    Exclusive key false true ∈ cs /\
    namespace_keys cs = [key] /\
    spawns cs = [].
Proof.
  destruct w as [av ps ls tr].
  destruct av as [|exe [|repository [|branch deps]]].
  1-3: left; eexists []; step; by rewrite app_nil_r.
  destruct (decide (List.length deps = 1%nat)) as [Hodd|Hdeps].
  { destruct deps as [|deprepo [|? ?]]; try done.
    left. eexists. step. by trace_tail. }
  set (w := mkWorld _ _ _ _).
  assert (Hargv : argv w = command exe (repository :: branch :: deps)) by done.
  localbuild_paths repodata w repository branch Hargv Hdeps Hrun; rewrite Hrun.
  - left. eexists. split; [reflexivity |]. by_arguments deps Hdeps; done.
  - right. eexists _, _. split; [exact Hfree |]. split; [done |].
    split; [reflexivity |].
    match goal with
    | |- context [host_key_tasks ?u] =>
        destruct (host_key_tasks_keep_off u) as (_ & Hspace & _);
        assert (Hspawn : spawns (host_key_tasks u) = [])
          by (unfold host_key_tasks;
              destruct (negb _); [| done];
              destruct (Re.match_ ssh_url_re u) as [m|];
              [ by destruct (truthy (Re.group m 2))
              | by destruct (Re.match_ scp_like_re u) ])
    end.
    split.
    + apply elem_of_app. right. apply elem_of_cons. right.
      apply elem_of_cons. by left.
    + unfold namespace_keys, spawns in *.
      rewrite !omap_app, Hspace, Hspawn.
      by_arguments deps Hdeps; done.
  - left. eexists. split; [reflexivity |]. by_arguments deps Hdeps; done.
  - left. eexists. split; [reflexivity |]. by_arguments deps Hdeps; done.
Qed.

(** X13. Whatever its arguments and whatever the repository data, a run of
    the standard build type never releases a lock and never spawns a
    handler; it extends a namespace only for a key whose lock was free and
    which it has acquired in this very run; and it adds tasks only in a run
    that has extended a namespace. *)
Theorem localbuild_builds_only_under_its_lock repodata w :
  let w' := snd (localbuild repodata w) in
  let cs := calls (localbuild repodata) w in
  locks w ⊆ locks w' /\
  spawns cs = [] /\
  (forall key, key ∈ namespace_keys cs ->
     (key ∉ locks w) /\ (key ∈ locks w') /\ (Exclusive key false true ∈ cs)) /\
  (tasks cs <> [] -> namespace_keys cs <> []).
Proof.
  intros w' cs. subst w' cs. unfold calls.
  destruct (localbuild_quiet_or_acquires repodata w)
    as [(cs & -> & -> & Hspace & Htasks & Hspawn)
       |(key & cs & Hfree & -> & -> & Hin & Hspace & Hspawn)];
    rewrite drop_app_length, Hspace.
  - split_and!; [done | done | | done].
    intros key Hkey. by apply elem_of_nil in Hkey.
  - split_and!; [apply union_subseteq_r | done | | done].
    intros key' Hkey. apply list_elem_of_singleton in Hkey as ->.
    split_and!; [done | | done].
    apply elem_of_union_l. by apply elem_of_singleton.
Qed.

(** ** The local-trusted build type *)

(** A call is not among the calls listed. *)
Ltac not_called :=
  let Hin := fresh "Hin" in
  first [intros ? ? Hin | intros Hin];
  repeat (apply elem_of_cons in Hin as [Hin|Hin]; [done |]);
  by apply elem_of_nil in Hin.

(** Every run of the local-trusted build type: it pops at most three words
    and touches neither the parameters nor the lock table. *)
Lemma localtrusted_runs repodata w :
  exists o cs,
    localtrusted repodata w =
      (o, mkWorld (drop 3 (argv w)) (parameters w) (locks w) (trace w ++ cs)) /\
    lock_keys cs = [] /\ spawns cs = [] /\ logs cs = [] /\
    (forall name value, SetParameter name value ∉ cs) /\
    GetRepoData ∉ cs.
Proof.
  destruct w as [av ps ls tr].
  destruct av as [|exe [|repository [|branch rest]]].
  1-3: eexists _, []; split; [step; by rewrite app_nil_r |];
       split_and!; try done; not_called.
  set (w := mkWorld _ _ _ _).
  assert (Hargv : argv w = command exe (repository :: branch :: rest)) by done.
  destruct (repodata !! repository) as [conf|] eqn:Hconf.
  - destruct (clone_url conf) as [url|] eqn:Hurl.
    + eexists _, _. split;
        [apply (localtrusted_listed repodata _ _ _ _ _ _ _ Hargv Hconf Hurl) |].
      split_and!; try done; not_called.
    + eexists _, _. split;
        [apply (localtrusted_no_clone_url repodata _ _ _ _ _ _ Hargv Hconf Hurl) |].
      split_and!; try done; not_called.
  - eexists _, []. split;
      [rewrite app_nil_r; apply (localtrusted_not_listed repodata _ _ _ _ _ Hargv Hconf) |].
    split_and!; try done; not_called.
Qed.

(** X14. Whatever its arguments and whatever the repository data, a run of
    the local-trusted build type leaves the parameters and the lock table
    as they were: it sets no parameter (the build metadata of the standard
    build type is not recorded), tries no lock, does not ask the robot for
    the repository data, logs nothing and spawns nothing. *)
Theorem localtrusted_records_nothing repodata w :
  let w' := snd (localtrusted repodata w) in
  let cs := calls (localtrusted repodata) w in
  parameters w' = parameters w /\
  locks w' = locks w /\
  lock_keys cs = [] /\
  spawns cs = [] /\
  logs cs = [] /\
  (forall name value, SetParameter name value ∉ cs) /\
  GetRepoData ∉ cs.
Proof.
  intros w' cs. subst w' cs.
  destruct (localtrusted_runs repodata w)
    as (o & cs & Hrun & Hlock & Hspawn & Hlogs & Hset & Hdata).
  destruct (run_calls _ _ _ _ _ _ _ Hrun) as [_ ->].
  rewrite Hrun. by split_and!.
Qed.

(** X15. For a listed repository with a clone URL the local-trusted build
    type extends exactly one namespace, that of the repository, with the
    retention the entry gives as [keep_history], or 7 when it gives none;
    the arguments after the branch are left unread in [sys.argv]. *)
Theorem localtrusted_retention repodata w exe repository branch rest conf url :
  argv w = command exe (repository :: branch :: rest) ->
  repodata !! repository = Some conf ->
  clone_url conf = Some url ->
  extensions (calls (localtrusted repodata) w) =
    [(repository, match keep_history conf with Some keep => keep | None => 7 end)] /\
  argv (snd (localtrusted repodata w)) = rest.
Proof.
  intros Hargv Hconf Hurl.
  pose proof (localtrusted_listed repodata _ _ _ _ _ _ _ Hargv Hconf Hurl) as Hrun.
  destruct (run_calls _ _ _ _ _ _ _ Hrun) as [_ ->].
  by rewrite Hrun.
Qed.

Lemma localtrusted_retention_witness :
  let repodata : gmap string RepoConf :=
    {[ "r" := mkRepoConf (Some "localtrusted") (Some "https://host/r.git") (Some 0) ]} in
  extensions (calls (localtrusted repodata)
                (start (command "localtrusted.py" ["r"; "b"; "x"]) ∅))
  = [("r", 0)].
Proof.
  intros repodata.
  destruct (localtrusted_retention repodata
              (start (command "localtrusted.py" ["r"; "b"; "x"]) ∅)
              "localtrusted.py" "r" "b" ["x"]
              (mkRepoConf (Some "localtrusted") (Some "https://host/r.git") (Some 0))
              "https://host/r.git")
    as [Hext _].
  - reflexivity.
  - reflexivity.
  - reflexivity.
  - exact Hext.
Defined.

(** ** From the dispatcher to the build type *)

(** X16. The dispatcher spawns a handler only for a listed repository, and
    gives it the repository and the branch and nothing else. So a build
    type started with the arguments of a spawned handler, over the same
    repository data, is a primary build and finds the entry of its
    repository: neither the standard nor the local-trusted build type ends
    in an exception, and the standard one leaves GOPHERCI_DEPBUILD as it
    was. *)
Theorem spawned_build_finds_its_entry repodata w exe repository branch rest
    handler w2 exe2 :
  argv w = command exe (repository :: branch :: rest) ->
  spawns (calls (gopherci repodata) w) = [handler] ->
  argv w2 = command exe2 [repository; branch] ->
  handler.2 = [PyStr repository; PyStr branch] /\
  (forall e, ends (localbuild repodata) w2 <> Raised e) /\
  (forall e, ends (localtrusted repodata) w2 <> Raised e) /\
  parameters (snd (localbuild repodata w2)) !! "GOPHERCI_DEPBUILD"
  = parameters w2 !! "GOPHERCI_DEPBUILD".
Proof.
  intros Hargv Hspawn Hargv2.
  assert (Hlisted : exists conf, repodata !! repository = Some conf /\
                                 handler.2 = [PyStr repository; PyStr branch]).
  { destruct (repodata !! repository) as [conf|] eqn:Hconf.
    - exists conf. split; [done |].
      destruct (type conf) as [repotype|] eqn:Htype.
      + destruct (decide (repotype = "none")) as [->|Hnone].
        * destruct (run_calls _ _ _ _ _ _ _
                      (gopherci_none repodata _ _ _ _ _ _ Hargv Hconf Htype))
            as [_ Hcalls].
          by rewrite Hcalls in Hspawn.
        * destruct (run_calls _ _ _ _ _ _ _
                      (gopherci_spawns repodata _ _ _ _ _ _ _ Hargv Hconf Htype Hnone))
            as [_ Hcalls].
          rewrite Hcalls in Hspawn. by injection Hspawn as <-.
      + destruct (run_calls _ _ _ _ _ _ _
                    (gopherci_no_type repodata _ _ _ _ _ _ Hargv Hconf Htype))
          as [_ Hcalls].
        by rewrite Hcalls in Hspawn.
    - destruct (run_calls _ _ _ _ _ _ _
                  (gopherci_not_listed repodata _ _ _ _ _ Hargv Hconf))
        as [_ Hcalls].
      by rewrite Hcalls in Hspawn. }
  destruct Hlisted as (conf & Hconf & Hargs).
  assert (Hdeps : well_formed []) by (unfold well_formed; cbn; lia).
  split; [exact Hargs |].
  destruct (clone_url conf) as [url|] eqn:Hurl.
  - split_and!.
    + destruct (decide (repobranch repository branch ∈ locks w2)) as [Hheld|Hfree].
      * by destruct (run_calls _ _ _ _ _ _ _
                       (localbuild_held repodata _ _ _ _ _ _ _
                          Hargv2 Hdeps Hconf Hurl Hheld)) as [-> _].
      * by destruct (run_calls _ _ _ _ _ _ _
                       (localbuild_free repodata _ _ _ _ _ _ _
                          Hargv2 Hdeps Hconf Hurl Hfree)) as [-> _].
    + by destruct (run_calls _ _ _ _ _ _ _
                     (localtrusted_listed repodata _ _ _ _ _ _ _
                        Hargv2 Hconf Hurl)) as [-> _].
    + destruct (decide (repobranch repository branch ∈ locks w2)) as [Hheld|Hfree].
      * rewrite (localbuild_held repodata _ _ _ _ _ _ _ Hargv2 Hdeps Hconf Hurl Hheld).
        cbn [snd parameters set_metadata]. by simplify_map_eq.
      * rewrite (localbuild_free repodata _ _ _ _ _ _ _ Hargv2 Hdeps Hconf Hurl Hfree).
        cbn [snd parameters set_metadata]. by simplify_map_eq.
  - split_and!.
    + by destruct (run_calls _ _ _ _ _ _ _
                     (localbuild_no_clone_url repodata _ _ _ _ _ _
                        Hargv2 Hdeps Hconf Hurl)) as [-> _].
    + by destruct (run_calls _ _ _ _ _ _ _
                     (localtrusted_no_clone_url repodata _ _ _ _ _ _
                        Hargv2 Hconf Hurl)) as [-> _].
    + rewrite (localbuild_no_clone_url repodata _ _ _ _ _ _ Hargv2 Hdeps Hconf Hurl).
      cbn [snd parameters set_metadata]. by simplify_map_eq.
Qed.

Lemma spawned_build_finds_its_entry_witness :
  let repodata := one_repository "localbuild" "https://host/r.git" in
  ends (localbuild repodata) (start (command "localbuild.py" ["r"; "main"]) ∅)
  <> Raised (NameError "repoconf").
Proof.
  intros repodata.
  destruct (spawned_build_finds_its_entry repodata
              (start (command "gopherci.py" ["r"; "main"]) ∅)
              "gopherci.py" "r" "main" []
              ("localbuild", [PyStr "r"; PyStr "main"])
              (start (command "localbuild.py" ["r"; "main"]) ∅)
              "localbuild.py")
    as (_ & Hbuild & _).
  - reflexivity.
  - vm_compute. reflexivity.
  - reflexivity.
  - exact (Hbuild (NameError "repoconf")).
Defined.

(** ** What the patterns capture *)

(** X17. The first pattern accepts exactly the strings that start with
    ssh://: after that prefix every one of its parts may match nothing. *)
Theorem ssh_url_re_accepts_the_prefix (url : string) :
  is_Some (Re.match_ ssh_url_re url) <-> startswith url "ssh://" = true.
Proof.
  unfold Re.match_, ssh_url_re, startswith.
  cbn [Re.run].
  destruct (Re.strip "ssh://" url) as [s0|]; [| split; [by intros [? ?] | done]].
  split; [done | intros _].
  destruct (Re.star Re.dot s0 _); [done |].
  apply star_total. intros s2.
  by destruct (match Re.strip ":" s2 with Some _ => _ | None => _ end).
Qed.

(** What a star has taken when the match went through: a run of characters
    of the class. *)
Lemma star_result {R : Type} (cls : ascii -> bool) (k : string -> option R)
    (s : string) (r : R) :
  Re.star cls s k = Some r ->
  exists taken rest,
    s = taken +:+ rest /\ all_chars cls taken = true /\ k rest = Some r.
Proof.
  induction s as [|c s IH]; cbn [Re.star]; intros Hstar.
  - by exists EmptyString, EmptyString.
  - destruct (cls c) eqn:Hc; [| by exists EmptyString, (String c s)].
    destruct (Re.star cls s k) as [r'|] eqn:Hdeep;
      [| by exists EmptyString, (String c s)].
    injection Hstar as ->.
    destruct (IH eq_refl) as (taken & rest & -> & Htaken & Hk).
    exists (String c taken), rest. cbn [all_chars]. by rewrite Hc, Htaken.
Qed.

Lemma string_length_app (s1 s2 : string) :
  String.length (s1 +:+ s2) = (String.length s1 + String.length s2)%nat.
Proof.
  induction s1 as [|c s1 IH]; [done |].
  rewrite string_app_cons. cbn [String.length]. by rewrite IH.
Qed.

Lemma substring_prefix (s1 s2 : string) :
  String.substring 0 (String.length s1) (s1 +:+ s2) = s1.
Proof.
  induction s1 as [|c s1 IH].
  - by destruct s2.
  - rewrite string_app_cons. cbn [String.length String.substring]. by rewrite IH.
Qed.

(** The text between a string and its suffix is the prefix. *)
Lemma consumed_app (taken rest : string) :
  Re.consumed (taken +:+ rest) rest = taken.
Proof.
  unfold Re.consumed. rewrite string_length_app.
  replace (String.length taken + String.length rest - String.length rest)%nat
    with (String.length taken) by lia.
  apply substring_prefix.
Qed.

(** The optional user part captures nothing. *)
Lemma user_part_captures_nothing (s : string) (g m : gmap nat string)
    (k : string -> gmap nat string -> option (gmap nat string)) :
  Re.run (Re.Opt (Re.Seq (Re.StarClass Re.dot) (Re.Lit "@"))) s g k = Some m ->
  exists s', k s' g = Some m.
Proof.
  cbn [Re.run]. intros Hrun.
  destruct (Re.star Re.dot s _) as [m'|] eqn:Hstar.
  - injection Hrun as ->.
    destruct (star_result _ _ _ _ Hstar) as (taken & rest & _ & _ & Hk).
    destruct (Re.strip "@" rest) as [s'|]; [by exists s' | done].
  - by exists s.
Qed.

(** What the first pattern captures: a host without colon and slash, and
    maybe a port without slash. *)
Lemma ssh_url_re_captures (url : string) (m : gmap nat string) :
  Re.match_ ssh_url_re url = Some m ->
  exists host,
    all_chars (Re.none_of ":/") host = true /\
    (m = {[ 1%nat := host ]} \/
     exists port,
       all_chars (Re.none_of "/") port = true /\
       m = <[ 2%nat := port ]> {[ 1%nat := host ]}).
Proof.
  unfold Re.match_, ssh_url_re.
  cbn [Re.run]. destruct (Re.strip "ssh://" url) as [s0|]; [| done].
  intros Hrun.
  change (Re.run (Re.Opt (Re.Seq (Re.StarClass Re.dot) (Re.Lit "@"))) s0 ∅
            (fun s1 g1 =>
               Re.star (Re.none_of ":/") s1
                 (fun s2 =>
                    Re.run (Re.Opt
                              (Re.Seq (Re.Lit ":")
                                 (Re.Seq (Re.Group 2 (Re.StarClass (Re.none_of "/")))
                                    (Re.Lit "/"))))
                      s2 (<[1%nat := Re.consumed s1 s2]> g1)
                      (fun _ g => Some g))) = Some m) in Hrun.
  apply user_part_captures_nothing in Hrun as (s1 & Hhost).
  apply star_result in Hhost as (host & s2 & -> & Hhost & Hport).
  rewrite consumed_app in Hport.
  exists host. split; [exact Hhost |].
  cbn [Re.run] in Hport.
  destruct (Re.strip ":" s2) as [s3|]; [| left; by injection Hport as <-].
  destruct (Re.star (Re.none_of "/") s3 _) as [m'|] eqn:Hstar;
    [| left; by injection Hport as <-].
  injection Hport as ->.
  apply star_result in Hstar as (port & s4 & -> & Hchars & Hslash).
  rewrite consumed_app in Hslash.
  destruct (Re.strip "/" s4) as [s5|]; [| done].
  right. exists port. split; [exact Hchars |]. by injection Hslash as <-.
Qed.

(** What the second pattern captures: a host without colon and slash. *)
Lemma scp_like_re_captures (url : string) (m : gmap nat string) :
  Re.match_ scp_like_re url = Some m ->
  exists host,
    all_chars (Re.none_of ":/") host = true /\ m = {[ 1%nat := host ]}.
Proof.
  unfold Re.match_, scp_like_re. intros Hrun.
  change (Re.run (Re.Opt (Re.Seq (Re.StarClass Re.dot) (Re.Lit "@"))) url ∅
            (fun s1 g1 =>
               Re.star (Re.none_of ":/") s1
                 (fun s2 => Some (<[1%nat := Re.consumed s1 s2]> g1))) = Some m)
    in Hrun.
  apply user_part_captures_nothing in Hrun as (s1 & Hhost).
  apply star_result in Hhost as (host & s2 & -> & Hhost & Hm).
  rewrite consumed_app in Hm.
  exists host. split; [exact Hhost |]. by injection Hm as <-.
Qed.

(** The shape of the host-key tasks, whatever the clone URL: none, or
    ssh-init and an ssh-scan of a host without colon and slash, with a port
    that is not empty and has no slash, or without a port. *)
Lemma host_key_tasks_shape (url : string) :
  host_key_tasks url = [] \/
  exists host port,
    all_chars (Re.none_of ":/") host = true /\
    match port with
    | Some p => p <> EmptyString /\ all_chars (Re.none_of "/") p = true
    | None => True
    end /\
    host_key_tasks url =
      [AddTask "ssh-init" []; AddTask "ssh-scan" (scan_args host port)].
Proof.
  unfold host_key_tasks.
  destruct (negb _); [| by left]. right.
  destruct (Re.match_ ssh_url_re url) as [m|] eqn:Hssh.
  - destruct (ssh_url_re_captures _ _ Hssh)
      as (host & Hhost & [->|(port & Hport & ->)]).
    + by exists host, None.
    + unfold Re.group. simplify_map_eq.
      destruct port as [|c port]; [by exists host, None |].
      by exists host, (Some (String c port)).
  - destruct (scp_like_re_total url) as [m Hscp]. rewrite Hscp.
    destruct (scp_like_re_captures _ _ Hscp) as (host & Hhost & ->).
    by exists host, None.
Qed.

(** X18. Whatever the clone URL, the tasks of a run of the standard build
    type that acquires the lock are the clone, the pipeline and the
    cleanup, with either nothing in front or ssh-init and one ssh-scan. The
    arguments of that ssh-scan are always strings, never [None]: a host
    without colon and slash, alone or after -p and a port that is not empty
    and has no slash. *)
Theorem ssh_scan_arguments repodata w exe repository branch deps conf url :
  argv w = command exe (repository :: branch :: deps) ->
  well_formed deps ->
  repodata !! repository = Some conf ->
  clone_url conf = Some url ->
  repobranch repository branch ∉ locks w ->
  exists host_key,
    tasks (calls (localbuild repodata) w) =
      (host_key
       ++ [("git-sync",
            [PyStr url; PyStr branch; PyStr (repobranch repository branch);
             PyStr "true"]);
           ("runpipeline", []);
           ("cleanup", [])])%list /\
    (host_key = [] \/
     exists host port,
       all_chars (Re.none_of ":/") host = true /\
       match port with
       | Some p => p <> EmptyString /\ all_chars (Re.none_of "/") p = true
       | None => True
       end /\
       host_key = [("ssh-init", []); ("ssh-scan", scan_args host port)]).
Proof.
  intros Hargv Hdeps Hconf Hurl Hfree.
  destruct (localbuild_tasks repodata _ _ _ _ _ _ _ Hargv Hdeps Hconf Hurl Hfree)
    as [_ Htasks].
  exists (tasks (host_key_tasks url)). split; [exact Htasks |].
  destruct (host_key_tasks_shape url) as [->|(host & port & Hhost & Hport & ->)];
    [by left |].
  right. by exists host, port.
Qed.

Lemma ssh_scan_arguments_witness :
  let repodata := one_repository "localbuild" "git@host:repo.git" in
  exists host_key,
    tasks (calls (localbuild repodata) (start (command "localbuild.py" ["r"; "b"]) ∅))
    = (host_key
       ++ [("git-sync",
            [PyStr "git@host:repo.git"; PyStr "b"; PyStr (repobranch "r" "b");
             PyStr "true"]);
           ("runpipeline", []);
           ("cleanup", [])])%list.
Proof.
  intros repodata.
  destruct (ssh_scan_arguments repodata
              (start (command "localbuild.py" ["r"; "b"]) ∅)
              "localbuild.py" "r" "b" []
              (mkRepoConf (Some "localbuild") (Some "git@host:repo.git") None)
              "git@host:repo.git")
    as (host_key & Htasks & _).
  - reflexivity.
  - unfold well_formed. simpl. lia.
  - reflexivity.
  - reflexivity.
  - vm_compute. intros H. discriminate H.
  - exists host_key. exact Htasks.
Defined.

(** ** Clone URLs put together from their parts *)

Lemma all_chars_app (cls : ascii -> bool) (s1 s2 : string) :
  all_chars cls (s1 +:+ s2) = all_chars cls s1 && all_chars cls s2.
Proof.
  induction s1 as [|c s1 IH]; [done |].
  rewrite string_app_cons. cbn [all_chars]. by rewrite IH, andb_assoc.
Qed.

(** A star runs to the end of a run of its class, when the match goes on
    from there. *)
Lemma star_stops {R : Type} (cls : ascii -> bool) (k : string -> option R)
    (taken rest : string) :
  all_chars cls taken = true ->
  match rest with
  | EmptyString => true
  | String c _ => negb (cls c)
  end = true ->
  is_Some (k rest) ->
  Re.star cls (taken +:+ rest) k = k rest.
Proof.
  intros Htaken Hrest [r Hk].
  induction taken as [|c taken IH].
  - rewrite string_app_nil. destruct rest as [|c rest]; [done |].
    cbn [Re.star]. by apply negb_true_iff in Hrest as ->.
  - rewrite string_app_cons. cbn [Re.star all_chars] in *.
    apply andb_prop in Htaken as [-> Htaken].
    by rewrite (IH Htaken), Hk.
Qed.

(** A star fails when the match goes on from none of the places it can
    stop at. *)
Lemma star_fails {R : Type} (cls : ascii -> bool) (k : string -> option R)
    (s : string) :
  (forall taken rest, s = taken +:+ rest -> k rest = None) ->
  Re.star cls s k = None.
Proof.
  induction s as [|c s IH]; intros Hk.
  - cbn [Re.star]. by apply (Hk EmptyString).
  - cbn [Re.star].
    assert (Hhere : k (String c s) = None) by by apply (Hk EmptyString).
    destruct (cls c); [| done].
    rewrite IH; [done |].
    intros taken rest ->. by apply (Hk (String c taken)).
Qed.

(** No way on with a literal character that does not occur. *)
Lemma literal_missing {R : Type} (cls : ascii -> bool) (c : ascii)
    (k : string -> string -> option R) (s : string) :
  all_chars (Re.none_of (String c EmptyString)) s = true ->
  Re.star cls s
    (fun s' => match Re.strip (String c EmptyString) s' with
               | Some s'' => k s' s''
               | None => None
               end) = None.
Proof.
  intros Hs. apply star_fails. intros taken rest ->.
  rewrite all_chars_app in Hs. apply andb_prop in Hs as [_ Hrest].
  destruct rest as [|x rest]; [done |].
  cbn [all_chars Re.none_of Re.strip] in *.
  rewrite andb_true_r in Hrest. apply andb_prop in Hrest as [Hx _].
  apply negb_true_iff in Hx. by rewrite Ascii.eqb_sym, Hx.
Qed.

(** The user part runs up to the last at-sign. *)
Lemma star_last_at {R : Type} (k : string -> option R) (user t : string) :
  all_chars Re.dot user = true ->
  all_chars (Re.none_of "@") t = true ->
  is_Some (k t) ->
  Re.star Re.dot (user +:+ "@" +:+ t)
    (fun s' => match Re.strip "@" s' with
               | Some s'' => k s''
               | None => None
               end) = k t.
Proof.
  intros Huser Ht [r Hk].
  induction user as [|c user IH].
  - rewrite string_app_nil, string_app_cons, string_app_nil.
    cbn [Re.star]. change (Re.dot "@"%char) with true. cbn iota.
    by rewrite (literal_missing Re.dot "@"%char (fun _ => k) t Ht).
  - rewrite string_app_cons. cbn [Re.star all_chars] in *.
    apply andb_prop in Huser as [-> Huser].
    by rewrite (IH Huser), Hk.
Qed.

(** The optional user part in front of a host: taken when it is there,
    skipped when there is no at-sign at all. *)
Lemma user_part (user : option string) (rest : string) (g : gmap nat string)
    (k : string -> gmap nat string -> option (gmap nat string)) :
  one_line user = true ->
  all_chars (Re.none_of "@") rest = true ->
  is_Some (k rest g) ->
  Re.run (Re.Opt (Re.Seq (Re.StarClass Re.dot) (Re.Lit "@")))
    (match user with Some u => u +:+ "@" +:+ rest | None => rest end) g k
  = k rest g.
Proof.
  intros Huser Hrest [m Hk]. cbn [Re.run].
  destruct user as [u|]; cbn [one_line] in Huser.
  - rewrite (star_last_at (fun s => k s g) u rest Huser Hrest) by by exists m.
    by rewrite Hk.
  - by rewrite (literal_missing Re.dot "@"%char (fun _ s => k s g) rest Hrest).
Qed.

(** The host group takes the host and stops at what follows it. *)
Lemma host_part (host tail : string) (g : gmap nat string)
    (k : string -> gmap nat string -> option (gmap nat string)) :
  all_chars (Re.none_of ":/") host = true ->
  after_host tail = true ->
  is_Some (k tail (<[1%nat := host]> g)) ->
  Re.run (Re.Group 1 (Re.StarClass (Re.none_of ":/"))) (host +:+ tail) g k
  = k tail (<[1%nat := host]> g).
Proof.
  intros Hhost Htail Hk. cbn [Re.run].
  rewrite (star_stops (Re.none_of ":/")
             (fun s' => k s' (<[1%nat := Re.consumed (host +:+ tail) s']> g))
             host tail Hhost).
  - by rewrite consumed_app.
  - destruct tail as [|c tail]; [done |].
    cbn [after_host Re.none_of] in *.
    apply orb_prop in Htail as [->| ->]; by rewrite ?orb_true_r, ?andb_false_r.
  - by rewrite consumed_app.
Qed.

(** The port part: a colon, the port, a slash. *)
Lemma port_part_taken (port path : string) (g : gmap nat string) :
  all_chars (Re.none_of "/") port = true ->
  Re.run port_part_re (":" +:+ port +:+ "/" +:+ path) g (fun _ g' => Some g')
  = Some (<[2%nat := port]> g).
Proof.
  intros Hport. unfold port_part_re. cbn [Re.run].
  rewrite string_app_cons, string_app_nil. cbn [Re.strip].
  change (Ascii.eqb ":" ":") with true. cbn iota.
  rewrite (star_stops (Re.none_of "/") _ port ("/" +:+ path) Hport).
  - rewrite string_app_cons, string_app_nil. cbn [Re.strip].
    change (Ascii.eqb "/" "/") with true. cbn iota.
    change (String "/" path) with ("/" +:+ path).
    by rewrite consumed_app.
  - done.
  - by rewrite string_app_cons, string_app_nil.
Qed.

(** No port part when what follows the host is empty or starts with a
    slash. *)
Lemma port_part_absent (tail : string) (g : gmap nat string) :
  match tail with
  | EmptyString => true
  | String c _ => Ascii.eqb c "/"%char
  end = true ->
  Re.run port_part_re tail g (fun _ g' => Some g') = Some g.
Proof.
  intros Htail. unfold port_part_re. cbn [Re.run].
  destruct tail as [|c tail]; [done |].
  apply Ascii.eqb_eq in Htail as ->. done.
Qed.


(** The first pattern on a URL put together from its parts: the host is
    captured, and the port part is tried on what follows the host. *)
Lemma ssh_url_re_on_parts (user : option string) (host tail : string) :
  one_line user = true ->
  all_chars (Re.none_of ":/") host = true ->
  all_chars (Re.none_of "@") (host +:+ tail) = true ->
  after_host tail = true ->
  Re.match_ ssh_url_re (ssh_url user host tail)
  = Re.run port_part_re tail {[ 1%nat := host ]} (fun _ g' => Some g').
Proof.
  intros Huser Hhost Hat Htail.
  unfold Re.match_, ssh_url_re, ssh_url.
  change (Re.run (Re.Seq (Re.Lit "ssh://") ?r)
            ("ssh://" +:+ ?s) ?g ?k) with (Re.run r s g k).
  change (Re.run (Re.Seq ?r1 (Re.Seq ?r2 ?r3)) ?s ?g ?k)
    with (Re.run r1 s g (fun s1 g1 => Re.run r2 s1 g1 (fun s2 g2 => Re.run r3 s2 g2 k))).
  assert (Hport : forall g, is_Some (Re.run port_part_re tail g (fun _ g' => Some g')))
    by (intros g; by apply opt_total).
  assert (Hgroup : forall g,
            Re.run (Re.Group 1 (Re.StarClass (Re.none_of ":/"))) (host +:+ tail) g
              (fun s2 g2 => Re.run port_part_re s2 g2 (fun _ g' => Some g'))
            = Re.run port_part_re tail (<[1%nat := host]> g) (fun _ g' => Some g')).
  { intros g. by apply host_part. }
  rewrite (user_part user (host +:+ tail) ∅
             (fun s1 g1 =>
                Re.run (Re.Group 1 (Re.StarClass (Re.none_of ":/"))) s1 g1
                  (fun s2 g2 => Re.run port_part_re s2 g2 (fun _ g' => Some g')))
             Huser Hat).
  - by rewrite Hgroup, insert_empty.
  - rewrite Hgroup. apply Hport.
Qed.


Lemma string_app_nil_r (s : string) : s +:+ EmptyString = s.
Proof.
  induction s as [|c s IH]; [done |]. by rewrite string_app_cons, IH.
Qed.

(** The host-key tasks for a URL of the ssh:// form, from what the port
    part captures. *)
Lemma host_key_tasks_ssh_url (user : option string) (host tail : string)
    (port : option string) :
  one_line user = true ->
  all_chars (Re.none_of ":/") host = true ->
  all_chars (Re.none_of "@") (host +:+ tail) = true ->
  after_host tail = true ->
  Re.run port_part_re tail {[ 1%nat := host ]} (fun _ g' => Some g')
  = Some (match port with
          | Some p => <[ 2%nat := p ]> {[ 1%nat := host ]}
          | None => {[ 1%nat := host ]}
          end) ->
  host_key_tasks (ssh_url user host tail) =
    [AddTask "ssh-init" [];
     AddTask "ssh-scan" (scan_args host (port ≫= port_given))].
Proof.
  intros Huser Hhost Hat Htail Hport.
  unfold host_key_tasks.
  rewrite (ssh_url_re_on_parts user host tail Huser Hhost Hat Htail), Hport.
  change (startswith (ssh_url user host tail) "http") with false. cbn [negb].
  unfold Re.group.
  destruct port as [[|c p]|]; by simplify_map_eq.
Qed.

(** X19. A round trip through the first pattern. For a clone URL put
    together as ssh://, maybe a user part and an at-sign, a host, a colon,
    a port, a slash and a path (no newline in the user part, no colon and
    no slash in the host, no slash in the port, no at-sign after the user
    part), a run of the standard build type that acquires the lock scans
    exactly that host: with -p and the port when the port is not empty,
    and without a port when it is empty. *)
Theorem ssh_url_with_port_is_parsed repodata w exe repository branch deps conf
    user host port path :
  argv w = command exe (repository :: branch :: deps) ->
  well_formed deps ->
  repodata !! repository = Some conf ->
  clone_url conf = Some (ssh_url user host (":" +:+ port +:+ "/" +:+ path)) ->
  repobranch repository branch ∉ locks w ->
  one_line user = true ->
  all_chars (Re.none_of ":/") host = true ->
  all_chars (Re.none_of "/") port = true ->
  all_chars (Re.none_of "@") host = true ->
  all_chars (Re.none_of "@") port = true ->
  all_chars (Re.none_of "@") path = true ->
  tasks (calls (localbuild repodata) w) =
    [("ssh-init", []);
     ("ssh-scan", scan_args host (port_given port));
     ("git-sync",
      [PyStr (ssh_url user host (":" +:+ port +:+ "/" +:+ path)); PyStr branch;
       PyStr (repobranch repository branch); PyStr "true"]);
     ("runpipeline", []);
     ("cleanup", [])].
Proof.
  intros Hargv Hdeps Hconf Hurl Hfree Huser Hhost Hport Hat1 Hat2 Hat3.
  destruct (localbuild_tasks repodata _ _ _ _ _ _ _ Hargv Hdeps Hconf Hurl Hfree)
    as [_ ->].
  rewrite (host_key_tasks_ssh_url user host _ (Some port)); try done.
  - rewrite !all_chars_app, Hat1, Hat2, Hat3. done.
  - by apply port_part_taken.
Qed.

Lemma ssh_url_with_port_is_parsed_witness :
  let url := ssh_url (Some "git") "host.example" (":" +:+ "2222" +:+ "/" +:+ "repo.git") in
  tasks (calls (localbuild (one_repository "localbuild" url))
           (start (command "localbuild.py" ["r"; "b"]) ∅)) =
    [("ssh-init", []);
     ("ssh-scan", [PyStr "-p"; PyStr "2222"; PyStr "host.example"]);
     ("git-sync", [PyStr url; PyStr "b"; PyStr "r/b"; PyStr "true"]);
     ("runpipeline", []);
     ("cleanup", [])].
Proof.
  intros url.
  apply (ssh_url_with_port_is_parsed
           (one_repository "localbuild" url)
           (start (command "localbuild.py" ["r"; "b"]) ∅)
           "localbuild.py" "r" "b" []
           (mkRepoConf (Some "localbuild") (Some url) None)
           (Some "git") "host.example" "2222" "repo.git").
  - reflexivity.
  - unfold well_formed. simpl. lia.
  - reflexivity.
  - reflexivity.
  - vm_compute. intros H. discriminate H.
  - reflexivity.
  - reflexivity.
  - reflexivity.
  - reflexivity.
  - reflexivity.
  - reflexivity.
Defined.

(** X20. For a clone URL put together as ssh://, maybe a user part and an
    at-sign, a host, and then nothing or a slash and a path, a run of the
    standard build type that acquires the lock scans exactly that host,
    without a port. *)
Theorem ssh_url_without_port_is_parsed repodata w exe repository branch deps conf
    user host path :
  let tail := match path with Some p => "/" +:+ p | None => EmptyString end in
  argv w = command exe (repository :: branch :: deps) ->
  well_formed deps ->
  repodata !! repository = Some conf ->
  clone_url conf = Some (ssh_url user host tail) ->
  repobranch repository branch ∉ locks w ->
  one_line user = true ->
  all_chars (Re.none_of ":/") host = true ->
  all_chars (Re.none_of "@") host = true ->
  all_chars (Re.none_of "@") tail = true ->
  tasks (calls (localbuild repodata) w) =
    [("ssh-init", []);
     ("ssh-scan", [PyStr host]);
     ("git-sync",
      [PyStr (ssh_url user host tail); PyStr branch;
       PyStr (repobranch repository branch); PyStr "true"]);
     ("runpipeline", []);
     ("cleanup", [])].
Proof.
  intros tail Hargv Hdeps Hconf Hurl Hfree Huser Hhost Hat1 Hat2.
  destruct (localbuild_tasks repodata _ _ _ _ _ _ _ Hargv Hdeps Hconf Hurl Hfree)
    as [_ ->].
  rewrite (host_key_tasks_ssh_url user host tail None); try done.
  - by rewrite all_chars_app, Hat1, Hat2.
  - subst tail. by destruct path.
  - apply port_part_absent. subst tail. by destruct path.
Qed.

Lemma ssh_url_without_port_is_parsed_witness :
  let url := ssh_url None "host.example" ("/" +:+ "repo.git") in
  tasks (calls (localbuild (one_repository "localbuild" url))
           (start (command "localbuild.py" ["r"; "b"]) ∅)) =
    [("ssh-init", []);
     ("ssh-scan", [PyStr "host.example"]);
     ("git-sync", [PyStr url; PyStr "b"; PyStr "r/b"; PyStr "true"]);
     ("runpipeline", []);
     ("cleanup", [])].
Proof.
  intros url.
  apply (ssh_url_without_port_is_parsed
           (one_repository "localbuild" url)
           (start (command "localbuild.py" ["r"; "b"]) ∅)
           "localbuild.py" "r" "b" []
           (mkRepoConf (Some "localbuild") (Some url) None)
           None "host.example" (Some "repo.git")).
  - reflexivity.
  - unfold well_formed. simpl. lia.
  - reflexivity.
  - reflexivity.
  - vm_compute. intros H. discriminate H.
  - reflexivity.
  - reflexivity.
  - reflexivity.
  - reflexivity.
Defined.



(** X22. An at-sign in the path moves the host. For a clone URL put
    together as ssh://, a host, a slash and a path with an at-sign in it,
    the user part of the pattern runs up to the last at-sign: a run of the
    standard build type that acquires the lock scans what follows that
    at-sign (here without colon and slash), not the host of the URL. *)
Theorem at_sign_in_the_path_moves_the_host repodata w exe repository branch deps conf
    host before after :
  let url := "ssh://" +:+ host +:+ "/" +:+ before +:+ "@" +:+ after in
  argv w = command exe (repository :: branch :: deps) ->
  well_formed deps ->
  repodata !! repository = Some conf ->
  clone_url conf = Some url ->
  repobranch repository branch ∉ locks w ->
  all_chars Re.dot host = true ->
  all_chars Re.dot before = true ->
  all_chars (Re.none_of ":/") after = true ->
  all_chars (Re.none_of "@") after = true ->
  tasks (calls (localbuild repodata) w) =
    [("ssh-init", []);
     ("ssh-scan", [PyStr after]);
     ("git-sync",
      [PyStr url; PyStr branch; PyStr (repobranch repository branch); PyStr "true"]);
     ("runpipeline", []);
     ("cleanup", [])].
Proof.
  intros url Hargv Hdeps Hconf Hurl Hfree Hhost Hbefore Hafter Hat.
  destruct (localbuild_tasks repodata _ _ _ _ _ _ _ Hargv Hdeps Hconf Hurl Hfree)
    as [_ ->].
  assert (Hparts : url = ssh_url (Some (host +:+ "/" +:+ before)) after EmptyString).
  { unfold url, ssh_url. by rewrite string_app_nil_r, !string_app_assoc. }
  rewrite Hparts at 1.
  rewrite (host_key_tasks_ssh_url _ after EmptyString None); try done.
  - cbn [one_line]. rewrite !all_chars_app, Hhost, Hbefore. done.
  - by rewrite string_app_nil_r.
Qed.

Lemma at_sign_in_the_path_moves_the_host_witness :
  let url := "ssh://" +:+ "host.example" +:+ "/" +:+ "team" +:+ "@" +:+ "work" in
  tasks (calls (localbuild (one_repository "localbuild" url))
           (start (command "localbuild.py" ["r"; "b"]) ∅)) =
    [("ssh-init", []);
     ("ssh-scan", [PyStr "work"]);
     ("git-sync", [PyStr url; PyStr "b"; PyStr "r/b"; PyStr "true"]);
     ("runpipeline", []);
     ("cleanup", [])].
Proof.
  intros url.
  apply (at_sign_in_the_path_moves_the_host
           (one_repository "localbuild" url)
           (start (command "localbuild.py" ["r"; "b"]) ∅)
           "localbuild.py" "r" "b" []
           (mkRepoConf (Some "localbuild") (Some url) None)
           "host.example" "team" "work").
  - reflexivity.
  - unfold well_formed. simpl. lia.
  - reflexivity.
  - reflexivity.
  - vm_compute. intros H. discriminate H.
  - reflexivity.
  - reflexivity.
  - reflexivity.
  - reflexivity.
Defined.



